(** * Green Routes: the recommendation pipeline of the map component

    A shallow embedding of the "healthy plan" pipeline of the two versions
    of the map component, [src/src/Map.js] and its later revision
    [src/unnamed/part_000]:

      findBestEnvironmentalParcel  (parcel ranker, radius filter inline)
      findBiggestParkOrTrail       (destination selector)
      generateParkGuide            (narrative generator)
      buildHealthyPlan             (plan builder)
      fetchParks / fetchEnvironmentalData / loadBikePaths (data adapters)

    Numbers.  JavaScript numbers are IEEE doubles.  The pipeline only
    compares them ([>]) and takes the sign of a difference ([b - a] in the
    sort comparator); on finite doubles both agree with the order of the
    rationals, so a finite number is a [Q] and [NaN] (what [undefined]
    becomes under ToNumber) is [None].

    Geometry.  [center], [buffer] and [booleanPointInPolygon] are imported
    from @turf/turf; they are the interface [Turf] below, and every theorem
    holds for every implementation of it.  [RefTurf] is a small executable
    implementation used to run the code on concrete maps. *)

From Stdlib Require Import List Bool Arith String QArith Permutation Sorted.
Import ListNotations.
Open Scope Q_scope.

(** ** JavaScript values and array methods *)

Module Js.

(** The only error the pipeline can raise. *)
Inductive Error : Type :=
| TypeError (msg : string).

(** Outcome of evaluating an expression or running a function body. *)
Inductive Completion (A : Type) : Type :=
| Normal (a : A)
| Throw (e : Error).
Arguments Normal {A} a.
Arguments Throw {A} e.

Definition bind {A B} (c : Completion A) (k : A -> Completion B) : Completion B :=
  match c with
  | Normal a => k a
  | Throw e => Throw e
  end.

(** A number after ToNumber: [None] is NaN. *)
Definition Number := option Q.

(** [a > b]; false as soon as one side is NaN. *)
Definition gt (a b : Number) : bool :=
  match a, b with
  | Some x, Some y => match x ?= y with Gt => true | _ => false end
  | _, _ => false
  end.

(** [a - b]. *)
Definition sub (a b : Number) : Number :=
  match a, b with
  | Some x, Some y => Some (x - y)
  | _, _ => None
  end.

(** SortCompare of ECMAScript: a NaN comparator result counts as +0. *)
Definition SortCompare {A} (comparefn : A -> A -> Number) (x y : A) : Q :=
  match comparefn x y with
  | Some v => v
  | None => 0
  end.

(** [x] goes after [y] exactly when the comparator is positive. *)
Definition after {A} (comparefn : A -> A -> Number) (x y : A) : bool :=
  match 0 ?= SortCompare comparefn x y with Lt => true | _ => false end.

(** [Array.prototype.sort(comparefn)].  The sort is stable (ECMAScript
    2019); with a consistent comparator its result is the one stable
    ordering of the input, which this insertion sort computes.  With an
    inconsistent comparator (one that returns NaN for some pairs only)
    the order is implementation-defined and an engine need not agree with
    this function; what is stated of a ranking is stated for parcels that
    all carry a score. *)
Fixpoint insert {A} (comparefn : A -> A -> Number) (x : A) (l : list A) : list A :=
  match l with
  | [] => [x]
  | y :: t => if after comparefn x y then y :: insert comparefn x t else x :: y :: t
  end.

Fixpoint sort {A} (comparefn : A -> A -> Number) (l : list A) : list A :=
  match l with
  | [] => []
  | x :: t => insert comparefn x (sort comparefn t)
  end.

(** [Array.prototype.reduce(callback)] with no initial value. *)
Definition reduce {A} (callback : A -> A -> A) (l : list A) : Completion A :=
  match l with
  | [] => Throw (TypeError "Reduce of empty array with no initial value")
  | x :: t => Normal (fold_left callback t x)
  end.

(** Truthiness of a string-or-undefined value. *)
Definition truthy (s : option string) : bool :=
  match s with
  | Some v => negb (String.eqb v EmptyString)
  | None => false
  end.

(** [a === b] on string-or-undefined values. *)
Definition strictEq (a b : option string) : bool :=
  match a, b with
  | Some x, Some y => String.eqb x y
  | None, None => true
  | _, _ => false
  end.

(** The order of two numbers that are both present. *)
Definition Le (a b : Number) : Prop :=
  match a, b with
  | Some x, Some y => x <= y
  | _, _ => False
  end.

(** [a] and [b] are the same number. *)
Definition same (a b : Number) : bool :=
  match a, b with
  | Some x, Some y => Qeq_bool x y
  | _, _ => false
  end.

Definition defined (a : Number) : Prop := a <> None.

End Js.

Notation "x <- c ;; k" := (Js.bind c (fun x => k))
  (at level 61, c at next level, right associativity).

(** ** Data model *)

(** A GeoJSON position, [[lon, lat]]. *)
Definition Position : Type := (Q * Q)%type.

Inductive Geometry : Type :=
| Point (coordinates : Position)
| LineString (coordinates : list Position)
| Polygon (coordinates : list (list Position)).

(** [geometry.type === 'Polygon'] *)
Definition isPolygon (g : Geometry) : bool :=
  match g with
  | Polygon _ => true
  | _ => false
  end.

(** The attributes the pipeline reads.  A [None] field is a key the
    object does not have (reading it gives [undefined]).  A key that is
    present with the value [null] is another input, which this record does
    not represent: [5 > null] is true and [null.toFixed] raises. *)
Record Properties : Type := mkProperties {
  percentile : Js.Number;
  acres : Js.Number;
  common_name : option string;
  full_name : option string;
  selected : option bool
}.

Record Feature : Type := mkFeature {
  geometry : Geometry;
  properties : Properties
}.

Record FeatureCollection : Type := mkFeatureCollection {
  features : list Feature
}.

(** The three @turf/turf functions of the pipeline.  [center f] stands for
    [center(f).geometry.coordinates]; it reads the geometry only.  The
    interface stands for the calls of turf that return: [center] raises on
    a geometry without coordinates and [booleanPointInPolygon] on a parcel
    that is not a polygon, and then the function that made the call raises
    with it. *)
Class Turf : Type := {
  center : Geometry -> Position;
  buffer : Position -> Q -> Geometry;
  booleanPointInPolygon : Position -> Geometry -> bool
}.

(** [const SD_BOUNDS = [-117.6, 32.5, -116.1, 33.5]] *)
Definition SD_BOUNDS : Q * Q * Q * Q :=
  (-(1176 # 10), 325 # 10, -(1161 # 10), 335 # 10).

Definition isWithinSanDiego (p : Position) : bool :=
  let '(west, south, east, north) := SD_BOUNDS in
  let '(lon, lat) := p in
  Qle_bool west lon && Qle_bool lon east &&
  Qle_bool south lat && Qle_bool lat north.

(** ** A reference implementation of the geometry interface

    [center] is the centre of the bounding box, as in turf.
    [booleanPointInPolygon] is the even-odd crossing test on the outer ring
    minus the holes.  [buffer] is an axis-aligned square of half side
    [radius / 100] degrees: for 2 miles a square of half side 0.02 degree,
    which lies inside turf's 2-mile disc at San Diego's latitude. *)

Module RefTurf.

Definition coords (g : Geometry) : list Position :=
  match g with
  | Point p => [p]
  | LineString l => l
  | Polygon rings => List.concat rings
  end.

Definition Qmin' (a b : Q) : Q := if Qle_bool a b then a else b.
Definition Qmax' (a b : Q) : Q := if Qle_bool a b then b else a.

Definition bbox (g : Geometry) : Q * Q * Q * Q :=
  match coords g with
  | [] => (0, 0, 0, 0)
  | (x, y) :: t =>
      fold_left (fun '(w, s, e, n) '(px, py) =>
                   (Qmin' w px, Qmin' s py, Qmax' e px, Qmax' n py))
                t (x, y, x, y)
  end.

Definition center (g : Geometry) : Position :=
  let '(w, s, e, n) := bbox g in
  (Qred ((w + e) / 2), Qred ((s + n) / 2)).

Definition Qlt_bool (a b : Q) : bool := negb (Qle_bool b a).

(** One edge of the crossing test: does the ray from [(x, y)] towards
    +infinity cross the edge [(xi, yi) - (xj, yj)]? *)
Definition crosses (p : Position) (a b : Position) : bool :=
  let '(x, y) := p in
  let '(xi, yi) := a in
  let '(xj, yj) := b in
  negb (Bool.eqb (Qlt_bool y yi) (Qlt_bool y yj)) &&
  Qlt_bool x ((xj - xi) * (y - yi) / (yj - yi) + xi).

Fixpoint crossings (p : Position) (prev : Position) (ring : list Position) : bool :=
  match ring with
  | [] => false
  | q :: t => xorb (crosses p q prev) (crossings p q t)
  end.

Definition inRing (p : Position) (ring : list Position) : bool :=
  match ring with
  | [] => false
  | _ :: _ => crossings p (last ring (0, 0)) ring
  end.

Definition booleanPointInPolygon (p : Position) (g : Geometry) : bool :=
  match g with
  | Polygon (outer :: holes) =>
      inRing p outer && negb (existsb (inRing p) holes)
  | _ => false
  end.

(** The closed ring of the axis-aligned rectangle [w, e] x [s, n]. *)
Definition box (w s e n : Q) : Geometry :=
  Polygon [[(w, s); (e, s); (e, n); (w, n); (w, s)]].

Definition buffer (p : Position) (radius : Q) : Geometry :=
  let '(x, y) := p in
  let h := radius / 100 in
  box (x - h) (y - h) (x + h) (y + h).

End RefTurf.

#[export] Instance refTurf : Turf := {|
  center := RefTurf.center;
  buffer := RefTurf.buffer;
  booleanPointInPolygon := RefTurf.booleanPointInPolygon
|}.


(** ** Data source adapters (the same in both files) *)

(** A feature as the ArcGIS parks service returns it. *)
Record EsriFeature : Type := mkEsriFeature {
  rings : list (list Position);
  attributes : Properties
}.

Section Adapters.
Context `{Turf}.

(** The value of the [environmentalData] state after the fetch; a failed
    request is logged and leaves the state as it was. *)
Definition fetchEnvironmentalData (response : Js.Completion (list Feature))
    (environmentalData : option FeatureCollection) : option FeatureCollection :=
  match response with
  | Js.Normal data =>
      let sdFeatures :=
        filter (fun feature =>
                  let polygonCenter := center (geometry feature) in
                  isWithinSanDiego polygonCenter) data in
      Some (mkFeatureCollection sdFeatures)
  | Js.Throw _ => environmentalData
  end.

(** The value of the [parks] state after the fetch. *)
Definition fetchParks (response : Js.Completion (list EsriFeature))
    (parks : option FeatureCollection) : option FeatureCollection :=
  match response with
  | Js.Normal data =>
      let features :=
        filter (fun feature =>
                  let polygonCenter := center (geometry feature) in
                  isWithinSanDiego polygonCenter)
               (map (fun feature =>
                       mkFeature (Polygon (rings feature)) (attributes feature))
                    data) in
      Some (mkFeatureCollection features)
  | Js.Throw _ => parks
  end.

(** [setBikePaths(bikePathsData)]: the bundled dataset, as it is. *)
Definition loadBikePaths (bikePathsData : FeatureCollection) : option FeatureCollection :=
  Some bikePathsData.

(** ** Spatial filter

    The radius filter is written inline in [findBestEnvironmentalParcel]:
    [features.filter(feature => booleanPointInPolygon(center(feature), buffer))]
    with [buffer = buffer(point(origin), radius, {units: 'miles'})]. *)
Definition withinRadius (origin : Position) (radiusMiles : Q)
    (candidates : list Feature) : list Feature :=
  let userPoint := origin in
  let bufferPolygon := buffer userPoint radiusMiles in
  filter (fun feature => booleanPointInPolygon (center (geometry feature)) bufferPolygon)
         candidates.

(** [parks.features.filter(park => booleanPointInPolygon(center(park), parcel))],
    and the same filter over the trails. *)
Definition inParcel (parcel : Feature) (candidates : list Feature) : list Feature :=
  filter (fun candidate =>
            booleanPointInPolygon (center (geometry candidate)) (geometry parcel))
         candidates.

(** ** Destination selector (the same in both files) *)

(** The reduce callback:
    [(current.properties.acres > biggest.properties.acres) ? current : biggest] *)
Definition bigger (biggest current : Feature) : Feature :=
  if Js.gt (acres (properties current)) (acres (properties biggest))
  then current else biggest.

Definition findBiggestParkOrTrail (parks bikePaths : option FeatureCollection)
    (parcel : Feature) : Js.Completion (option Feature) :=
  match parks, bikePaths with
  | Some parks, Some bikePaths =>
      let parksInParcel := inParcel parcel (features parks) in
      if (0 <? List.length parksInParcel)%nat then
        biggest <- Js.reduce bigger parksInParcel ;;
        Js.Normal (Some biggest)
      else
        (* If no parks, find a trail *)
        let trailsInParcel := inParcel parcel (features bikePaths) in
        Js.Normal (if (0 <? List.length trailsInParcel)%nat
                   then nth_error trailsInParcel 0 else None)
  | _, _ => Js.Normal None
  end.

End Adapters.

(** ** Narrative generator *)

(** The parts of the prompt that depend on the park:
    [${parkInfo.full_name || parkInfo.common_name}] and
    [${parkInfo.acres.toFixed(2)}]. *)
Record Prompt : Type := mkPrompt {
  prompt_name : option string;
  prompt_acres : Q
}.

(** The two remote services of the plan builder.  [None] is a call that
    throws or rejects, or whose response lacks the field read from it. *)
Record Services : Type := mkServices {
  chatCompletions : Prompt -> option string;
  directions : Position -> Position -> option Geometry
}.

Definition guideUnavailable : string :=
  "Sorry, we couldn't generate a guide for this park at the moment.".

(** The template literal is evaluated before the [try] block is entered:
    [parkInfo.acres.toFixed(2)] raises a TypeError when [acres] is
    [undefined], and that error is not caught. *)
Definition parkPrompt (park : Feature) : Js.Completion Prompt :=
  let parkInfo := properties park in
  match acres parkInfo with
  | Some a =>
      Js.Normal (mkPrompt (if Js.truthy (full_name parkInfo)
                           then full_name parkInfo else common_name parkInfo) a)
  | None =>
      Js.Throw (Js.TypeError "Cannot read properties of undefined (reading 'toFixed')")
  end.

Definition generateParkGuide (svc : Services) (park : Feature) : Js.Completion string :=
  prompt <- parkPrompt park ;;
  match chatCompletions svc prompt with
  | Some content => Js.Normal content
  | None => Js.Normal guideUnavailable
  end.

(** [getRoute]: a failed request is logged and gives [null]. *)
Definition getRoute (svc : Services) (start finish : Position) : option Geometry :=
  directions svc start finish.

Inductive PlanType : Type := Park | Trail.

Record HealthyPlan : Type := mkHealthyPlan {
  type : PlanType;
  location : Feature;
  environmentalRating : Js.Number;
  guide : string
}.

(** The argument of [map.flyTo]. *)
Record FlyTo : Type := mkFlyTo {
  fly_center : Position;
  fly_zoom : Z;
  fly_duration : Z
}.

(** ** The plan builder of [src/src/Map.js] *)

Module MapJs.

Record State : Type := mkState {
  environmentalData : option FeatureCollection;
  bikePaths : option FeatureCollection;
  parks : option FeatureCollection;
  userLocation : option Position;
  healthyPlan : option HealthyPlan;
  map : bool;
  flownTo : option FlyTo
}.

Definition setHealthyPlan (plan : HealthyPlan) (s : State) : State :=
  mkState (environmentalData s) (bikePaths s) (parks s) (userLocation s)
          (Some plan) (map s) (flownTo s).

Definition flyTo (target : FlyTo) (s : State) : State :=
  mkState (environmentalData s) (bikePaths s) (parks s) (userLocation s)
          (healthyPlan s) (map s) (Some target).

Section Builder.
Context `{Turf}.

(** The reduce callback:
    [(current.properties.percentile > best.properties.percentile) ? current : best] *)
Definition better (best current : Feature) : Feature :=
  if Js.gt (percentile (properties current)) (percentile (properties best))
  then current else best.

Definition findBestEnvironmentalParcel (userLocation : option Position)
    (environmentalData : option FeatureCollection) : Js.Completion (option Feature) :=
  match userLocation, environmentalData with
  | Some userLocation, Some environmentalData =>
      let parcelsInRange := withinRadius userLocation 2 (features environmentalData) in
      best <- Js.reduce better parcelsInRange ;;
      Js.Normal (Some best)
  | _, _ => Js.Normal None
  end.

Definition buildHealthyPlan (svc : Services) (s : State) : Js.Completion State :=
  bestParcel <- findBestEnvironmentalParcel (userLocation s) (environmentalData s) ;;
  match bestParcel with
  | Some bestParcel =>
      bestLocation <- findBiggestParkOrTrail (parks s) (bikePaths s) bestParcel ;;
      match bestLocation with
      | Some bestLocation =>
          guide <- generateParkGuide svc bestLocation ;;
          let s := setHealthyPlan
                     (mkHealthyPlan
                        (if isPolygon (geometry bestLocation) then Park else Trail)
                        bestLocation
                        (percentile (properties bestParcel))
                        guide) s in
          (* Pan to the recommended location *)
          let lonlat := center (geometry bestLocation) in
          Js.Normal (if map s then flyTo (mkFlyTo lonlat 15 2000) s else s)
      | None => Js.Normal s
      end
  | None => Js.Normal s
  end.

End Builder.

End MapJs.

(** ** The plan builder of the later revision, [src/unnamed/part_000] *)

Module MapV2.

Record State : Type := mkState {
  environmentalData : option FeatureCollection;
  bikePaths : option FeatureCollection;
  parks : option FeatureCollection;
  userLocation : option Position;
  healthyPlan : option HealthyPlan;
  bikePathsContent : option FeatureCollection;
  selectedParkId : option string;
  route : option Geometry;
  map : bool;
  flownTo : option FlyTo
}.

Definition setRoute (r : option Geometry) (s : State) : State :=
  mkState (environmentalData s) (bikePaths s) (parks s) (userLocation s)
          (healthyPlan s) (bikePathsContent s) (selectedParkId s) r
          (map s) (flownTo s).

Definition setHealthyPlan (plan : HealthyPlan) (s : State) : State :=
  mkState (environmentalData s) (bikePaths s) (parks s) (userLocation s)
          (Some plan) (bikePathsContent s) (selectedParkId s) (route s)
          (map s) (flownTo s).

Definition setSelectedParkId (parkId : option string) (s : State) : State :=
  mkState (environmentalData s) (bikePaths s) (parks s) (userLocation s)
          (healthyPlan s) (bikePathsContent s) parkId (route s)
          (map s) (flownTo s).

Definition setParks (updatedParks : FeatureCollection) (s : State) : State :=
  mkState (environmentalData s) (bikePaths s) (Some updatedParks) (userLocation s)
          (healthyPlan s) (bikePathsContent s) (selectedParkId s) (route s)
          (map s) (flownTo s).

Definition flyTo (target : FlyTo) (s : State) : State :=
  mkState (environmentalData s) (bikePaths s) (parks s) (userLocation s)
          (healthyPlan s) (bikePathsContent s) (selectedParkId s) (route s)
          (map s) (Some target).

(** [{...park, properties: {...park.properties, selected: common_name === parkId}}] *)
Definition tagSelected (parkId : option string) (park : Feature) : Feature :=
  let props := properties park in
  mkFeature (geometry park)
            (mkProperties (percentile props) (acres props) (common_name props)
                          (full_name props)
                          (Some (Js.strictEq (common_name props) parkId))).

Section Builder.
Context `{Turf}.

(** The sort comparator: [(a, b) => b.properties.percentile - a.properties.percentile] *)
Definition byPercentileDesc (a b : Feature) : Js.Number :=
  Js.sub (percentile (properties b)) (percentile (properties a)).

(** The [for ... of] loop over the ranked parcels. *)
Fixpoint firstParcelWithPark (parks : FeatureCollection) (parcelsInRange : list Feature)
    : option Feature :=
  match parcelsInRange with
  | [] => None
  | parcel :: rest =>
      let parksInParcel := inParcel parcel (features parks) in
      if (0 <? List.length parksInParcel)%nat then Some parcel
      else firstParcelWithPark parks rest
  end.

Definition findBestEnvironmentalParcel (userLocation : option Position)
    (environmentalData parks : option FeatureCollection) : option Feature :=
  match userLocation, environmentalData, parks with
  | Some userLocation, Some environmentalData, Some parks =>
      let parcelsInRange :=
        Js.sort byPercentileDesc
                (withinRadius userLocation 2 (features environmentalData)) in
      firstParcelWithPark parks parcelsInRange
  | _, _, _ => None
  end.

Definition buildHealthyPlan (svc : Services) (s : State) : Js.Completion State :=
  match findBestEnvironmentalParcel (userLocation s) (environmentalData s) (parks s) with
  | Some bestParcel =>
      bestLocation <- findBiggestParkOrTrail (parks s) (bikePaths s) bestParcel ;;
      match bestLocation with
      | Some bestLocation =>
          guide <- generateParkGuide svc bestLocation ;;
          let s1 :=
            match userLocation s, bikePathsContent s with
            | Some userLocation, Some _ =>
                let parkCenter := center (geometry bestLocation) in
                (* Get the route between user location and park *)
                setRoute (getRoute svc userLocation parkCenter) s
            | _, _ => s
            end in
          let s2 := setHealthyPlan
                      (mkHealthyPlan
                         (if isPolygon (geometry bestLocation) then Park else Trail)
                         bestLocation
                         (percentile (properties bestParcel))
                         guide) s1 in
          (* Set the selected park ID *)
          let s3 :=
            match parks s with
            | Some parks =>
                let parkId := common_name (properties bestLocation) in
                if Js.truthy parkId then
                  setParks (mkFeatureCollection (List.map (tagSelected parkId) (features parks)))
                           (setSelectedParkId parkId s2)
                else s2
            | None => s2
            end in
          (* Pan to the recommended location *)
          let lonlat := center (geometry bestLocation) in
          Js.Normal (if map s then flyTo (mkFlyTo lonlat 13 2000) s3 else s3)
      | None => Js.Normal s
      end
  | None => Js.Normal s
  end.

End Builder.

End MapV2.

(** * Notions the statements use *)

(** [l1] is [l2] with some elements dropped, the rest in the same order. *)
Inductive Subsequence {A : Type} : list A -> list A -> Prop :=
| Subsequence_nil : Subsequence [] []
| Subsequence_skip (x : A) (l1 l2 : list A) :
    Subsequence l1 l2 -> Subsequence l1 (x :: l2)
| Subsequence_keep (x : A) (l1 l2 : list A) :
    Subsequence l1 l2 -> Subsequence (x :: l1) (x :: l2).

Section Invariants.
Context `{Turf}.

(** Every feature of a loaded collection has its centre in the box. *)
Definition allWithinSanDiego (c : option FeatureCollection) : Prop :=
  forall fc, c = Some fc ->
    Forall (fun f => isWithinSanDiego (center (geometry f)) = true) (features fc).

(** Every feature of a loaded collection is a polygon. *)
Definition allPolygons (c : option FeatureCollection) : Prop :=
  forall fc, c = Some fc ->
    Forall (fun f => isPolygon (geometry f) = true) (features fc).

(** The parcel has a park in it: [parksInParcel.length > 0]. *)
Definition hasPark (parks : FeatureCollection) (parcel : Feature) : bool :=
  (0 <? List.length (inParcel parcel (features parks)))%nat.

(** The candidate's centre is inside the parcel. *)
Definition inside (parcel candidate : Feature) : bool :=
  booleanPointInPolygon (center (geometry candidate)) (geometry parcel).

Definition scored (f : Feature) : Prop := Js.defined (percentile (properties f)).
Definition surveyed (f : Feature) : Prop := Js.defined (acres (properties f)).

(** The score of [f] is the score of [best]. *)
Definition tiedWith (best f : Feature) : bool :=
  Js.same (percentile (properties f)) (percentile (properties best)).

End Invariants.

(** * A concrete map of San Diego, for running the code *)

Module Fixture.

(** Thousandths of a degree. *)
Definition deg (n : Z) : Q := n # 1000.

Definition props (score area : Js.Number) (name : option string) : Properties :=
  mkProperties score area name None None.

Definition userLocation : Position := (deg (-117160), deg 32720).

(** Two neighbouring tracts next to the user, and one far away. *)
Definition parcelA : Feature :=
  mkFeature (RefTurf.box (deg (-117170)) (deg 32710) (deg (-117160)) (deg 32720))
            (props (Some (9 # 10)) None None).
Definition parcelB : Feature :=
  mkFeature (RefTurf.box (deg (-117160)) (deg 32720) (deg (-117150)) (deg 32730))
            (props (Some (7 # 10)) None None).
Definition parcelFar : Feature :=
  mkFeature (RefTurf.box (deg (-116510)) (deg 32990) (deg (-116490)) (deg 33010))
            (props (Some (95 # 100)) None None).
(** A tract on top of [parcelB] with the score of [parcelA]. *)
Definition parcelB9 : Feature :=
  mkFeature (geometry parcelB) (props (Some (9 # 10)) None (Some "B9"%string)).
Definition parcelB9b : Feature :=
  mkFeature (geometry parcelB) (props (Some (9 # 10)) None (Some "B9b"%string)).

(** Parks, all with their centre inside [parcelB]. *)
Definition parkAt (w s : Z) (area : Js.Number) (name : string) : Feature :=
  mkFeature (RefTurf.box (deg w) (deg s) (deg (w + 2)) (deg (s + 2)))
            (props None area (Some name)).
Definition park5 : Feature := parkAt (-117156) 32724 (Some 5) "Five Acre Park".
Definition park32 : Feature := parkAt (-117158) 32722 (Some (32 # 10)) "Small Park".
Definition park78 : Feature := parkAt (-117154) 32726 (Some (78 # 10)) "Large Park".
Definition park78b : Feature := parkAt (-117153) 32723 (Some (78 # 10)) "Other Large Park".
Definition parkNoAcres : Feature := parkAt (-117157) 32727 None "Unsurveyed Park".

(** Trails: two inside [parcelA], one in Los Angeles. *)
Definition trailA1 : Feature :=
  mkFeature (LineString [(deg (-117168), deg 32712); (deg (-117166), deg 32714)])
            (props None None None).
Definition trailA2 : Feature :=
  mkFeature (LineString [(deg (-117164), deg 32716); (deg (-117162), deg 32718)])
            (props None None None).
Definition trailLA : Feature :=
  mkFeature (LineString [(deg (-118250), deg 34050); (deg (-118240), deg 34060)])
            (props None None None).

Definition fc (l : list Feature) : option FeatureCollection :=
  Some (mkFeatureCollection l).

(** A narrative service that is down, and one that answers. *)
Definition servicesDown : Services := mkServices (fun _ => None) (fun _ _ => None).
Definition servicesUp : Services :=
  mkServices (fun _ => Some "### A park"%string)
             (fun a b => Some (LineString [a; b])).

Definition stateV2 (env prk trails : list Feature) : MapV2.State :=
  MapV2.mkState (fc env) (fc trails) (fc prk) (Some userLocation)
                None (fc trails) None None true None.

Definition stateJs (env prk trails : list Feature) : MapJs.State :=
  MapJs.mkState (fc env) (fc trails) (fc prk) (Some userLocation) None true None.


End Fixture.

(** ** The plan panel (the same expressions in both files)

    What the "Your Healthy Plan" block evaluates.  Texts that only
    decorate ([address_lo], the trail's [name], the directions link) are
    left out; [toFixed(2)] is applied to the numbers kept here. *)

Record ParkDetails : Type := mkParkDetails {
  details_name : option string;
  details_acres : Q
}.

Record PlanPanel : Type := mkPlanPanel {
  panel_type : PlanType;
  panel_rating : Js.Number;
  panel_guide : option string;
  panel_park : option ParkDetails;
  panel_trail : bool
}.

(** [healthyPlan.environmentalRating * 100] *)
Definition times100 (n : Js.Number) : Js.Number :=
  match n with
  | Some q => Some (q * 100)
  | None => None
  end.

(** [{healthyPlan.type === 'Park' && (... acres.toFixed(2) ...)}] *)
Definition parkDetails (healthyPlan : HealthyPlan) : Js.Completion (option ParkDetails) :=
  match type healthyPlan with
  | Park =>
      let props := properties (location healthyPlan) in
      match acres props with
      | Some a =>
          Js.Normal (Some (mkParkDetails
                             (if Js.truthy (full_name props)
                              then full_name props else common_name props) a))
      | None =>
          Js.Throw (Js.TypeError "Cannot read properties of undefined (reading 'toFixed')")
      end
  | Trail => Js.Normal None
  end.

(** [{healthyPlan && (...)}] *)
Definition planPanel (healthyPlan : option HealthyPlan) : Js.Completion (option PlanPanel) :=
  match healthyPlan with
  | None => Js.Normal None
  | Some healthyPlan =>
      details <- parkDetails healthyPlan ;;
      Js.Normal (Some (mkPlanPanel
                         (type healthyPlan)
                         (times100 (environmentalRating healthyPlan))
                         (if Js.truthy (Some (guide healthyPlan))
                          then Some (guide healthyPlan) else None)
                         details
                         (match type healthyPlan with Trail => true | Park => false end)))
  end.

(** ** The healthcare layer of [src/src/Map.js] *)

Module Healthcare.

(** A facility as the ArcGIS service returns it. *)
Record EsriPoint : Type := mkEsriPoint {
  x : Q;
  y : Q;
  attributes : Properties
}.

(** [isWithinSanDiego(feature.geometry.coordinates)]; the coordinates of
    a geometry that is not a point are arrays, which compare false with
    every bound. *)
Definition coordinatesWithinSanDiego (feature : Feature) : bool :=
  match geometry feature with
  | Point coordinates => isWithinSanDiego coordinates
  | _ => false
  end.

(** The value of the [healthcareFacilities] state after the fetch. *)
Definition fetchHealthcareFacilities (response : Js.Completion (list EsriPoint))
    (healthcareFacilities : option FeatureCollection) : option FeatureCollection :=
  match response with
  | Js.Normal data =>
      let features :=
        filter coordinatesWithinSanDiego
               (List.map (fun feature =>
                            mkFeature (Point (x feature, y feature)) (attributes feature))
                         data) in
      Some (mkFeatureCollection features)
  | Js.Throw _ => healthcareFacilities
  end.

(** The further @turf/turf functions of [generateAccessPolygons]:
    [squareGrid(...).features], [distance] in kilometres, and
    [dissolve(featureCollection(cells)).features], which raises on some
    collections (the empty one among them). *)
Class TurfGrid : Type := {
  bbox : FeatureCollection -> Q * Q * Q * Q;
  squareGrid : Q * Q * Q * Q -> Q -> list Feature;
  nearestPoint : Position -> FeatureCollection -> Feature;
  distance : Position -> Feature -> Js.Number;
  dissolve : list Feature -> Js.Completion (list Feature)
}.

(** [{...f, properties: {color}}] *)
Record AccessPolygon : Type := mkAccessPolygon {
  access_geometry : Geometry;
  color : string
}.

Section AccessPolygons.
Context `{Turf} `{TurfGrid}.

Definition distanceToNearest (healthcareFacilities : FeatureCollection) (cell : Feature)
    : Js.Number :=
  let cellCenter := center (geometry cell) in
  let nearestFacility := nearestPoint cellCenter healthcareFacilities in
  distance cellCenter nearestFacility.

(** The body of [grid.features.forEach]; the pair is
    [(redPolygons, yellowPolygons)]. *)
Definition classify (healthcareFacilities : FeatureCollection)
    (polygons : list Feature * list Feature) (cell : Feature)
    : list Feature * list Feature :=
  let '(redPolygons, yellowPolygons) := polygons in
  if Js.gt (distanceToNearest healthcareFacilities cell) (Some 5)
  then (redPolygons ++ [cell], yellowPolygons)
  else if Js.gt (distanceToNearest healthcareFacilities cell) (Some 3)
  then (redPolygons, yellowPolygons ++ [cell])
  else (redPolygons, yellowPolygons).

Definition classifyCells (healthcareFacilities : FeatureCollection) (grid : list Feature)
    : list Feature * list Feature :=
  fold_left (classify healthcareFacilities) grid ([], []).

(** The value of the [accessPolygons] state afterwards. *)
Definition generateAccessPolygons (healthcareFacilities : option FeatureCollection)
    (accessPolygons : option (list AccessPolygon))
    : Js.Completion (option (list AccessPolygon)) :=
  match healthcareFacilities with
  | None => Js.Normal accessPolygons
  | Some healthcareFacilities =>
      let boundingBox := bbox healthcareFacilities in
      let cellSide := 1 # 2 in
      let grid := squareGrid boundingBox cellSide in
      let '(redPolygons, yellowPolygons) := classifyCells healthcareFacilities grid in
      (* Merge individual polygons *)
      mergedRed <- dissolve redPolygons ;;
      mergedYellow <- dissolve yellowPolygons ;;
      Js.Normal
        (Some (List.map (fun f => mkAccessPolygon (geometry f) "red") mergedRed ++
               List.map (fun f => mkAccessPolygon (geometry f) "yellow") mergedYellow))
  end.

End AccessPolygons.

End Healthcare.

(** ** The layer switches of [src/src/Map.js] *)

Module Layers.

(** The three names the legend passes to [toggleLayer]. *)
Inductive LayerName : Type := environmental | healthcare | bikePaths.

Record LayerVisibility : Type := mkLayerVisibility {
  show_environmental : bool;
  show_healthcare : bool;
  show_bikePaths : bool
}.

(** [useState({environmental: true, healthcare: false, bikePaths: true})] *)
Definition initialVisibility : LayerVisibility := mkLayerVisibility true false true.

(** [prev[layerName]] *)
Definition get (prev : LayerVisibility) (layerName : LayerName) : bool :=
  match layerName with
  | environmental => show_environmental prev
  | healthcare => show_healthcare prev
  | bikePaths => show_bikePaths prev
  end.

(** [prev => ({...prev, [layerName]: !prev[layerName]})] *)
Definition toggleLayer (layerName : LayerName) (prev : LayerVisibility) : LayerVisibility :=
  match layerName with
  | environmental =>
      mkLayerVisibility (negb (get prev environmental)) (show_healthcare prev)
                        (show_bikePaths prev)
  | healthcare =>
      mkLayerVisibility (show_environmental prev) (negb (get prev healthcare))
                        (show_bikePaths prev)
  | bikePaths =>
      mkLayerVisibility (show_environmental prev) (show_healthcare prev)
                        (negb (get prev bikePaths))
  end.

(** Which sources and markers the map renders: the data is loaded and
    its switch is on.  The parks follow the bike paths switch. *)
Record Rendered : Type := mkRendered {
  environmentalSource : bool;
  accessSource : bool;
  facilityMarkers : bool;
  bikePathsSource : bool;
  parksSource : bool
}.

Definition loaded {A : Type} (data : option A) : bool :=
  match data with
  | Some _ => true
  | None => false
  end.

Definition rendered (s : MapJs.State)
    (healthcareFacilities : option FeatureCollection)
    (accessPolygons : option (list Healthcare.AccessPolygon))
    (layerVisibility : LayerVisibility) : Rendered :=
  mkRendered
    (loaded (MapJs.environmentalData s) && get layerVisibility environmental)
    (loaded accessPolygons && get layerVisibility healthcare)
    (loaded healthcareFacilities && get layerVisibility healthcare)
    (loaded (MapJs.bikePaths s) && get layerVisibility bikePaths)
    (loaded (MapJs.parks s) && get layerVisibility bikePaths).

End Layers.

(** ** Notions for the effects of the plan builder *)

Section PlanEffects.
Context `{Turf}.

(** The state [s'] is [s] after the later revision's plan builder has
    stored the plan for [bestLocation] in [bestParcel] with guide [text]:
    every piece of state, written out. *)
Definition planStored (svc : Services) (s : MapV2.State)
    (bestParcel bestLocation : Feature) (text : string) (s' : MapV2.State) : Prop :=
  MapV2.healthyPlan s' =
    Some (mkHealthyPlan (if isPolygon (geometry bestLocation) then Park else Trail)
                        bestLocation (percentile (properties bestParcel)) text) /\
  MapV2.route s' =
    match MapV2.userLocation s, MapV2.bikePathsContent s with
    | Some userLocation, Some _ =>
        getRoute svc userLocation (center (geometry bestLocation))
    | _, _ => MapV2.route s
    end /\
  MapV2.selectedParkId s' =
    match MapV2.parks s with
    | Some _ =>
        if Js.truthy (common_name (properties bestLocation))
        then common_name (properties bestLocation) else MapV2.selectedParkId s
    | None => MapV2.selectedParkId s
    end /\
  MapV2.parks s' =
    match MapV2.parks s with
    | Some parks =>
        if Js.truthy (common_name (properties bestLocation))
        then Some (mkFeatureCollection
                     (List.map (MapV2.tagSelected (common_name (properties bestLocation)))
                               (features parks)))
        else Some parks
    | None => None
    end /\
  MapV2.flownTo s' =
    (if MapV2.map s
     then Some (mkFlyTo (center (geometry bestLocation)) 13 2000)
     else MapV2.flownTo s) /\
  MapV2.environmentalData s' = MapV2.environmentalData s /\
  MapV2.bikePaths s' = MapV2.bikePaths s /\
  MapV2.userLocation s' = MapV2.userLocation s /\
  MapV2.bikePathsContent s' = MapV2.bikePathsContent s /\
  MapV2.map s' = MapV2.map s.

(** Two features that differ at most in the [selected] tag. *)
Definition sameButTag (f g : Feature) : Prop :=
  geometry f = geometry g /\
  percentile (properties f) = percentile (properties g) /\
  acres (properties f) = acres (properties g) /\
  common_name (properties f) = common_name (properties g) /\
  full_name (properties f) = full_name (properties g).

(** Two stored plans that differ at most in the text of the guide. *)
Definition samePlanButGuide (p q : option HealthyPlan) : Prop :=
  match p, q with
  | Some p, Some q =>
      type p = type q /\ location p = location q /\
      environmentalRating p = environmentalRating q
  | None, None => True
  | _, _ => False
  end.

(** The plan panel can be drawn for the stored plan. *)
Definition panelRenders (healthyPlan : option HealthyPlan) : Prop :=
  exists view, planPanel healthyPlan = Js.Normal view.

(** No two parcels of the list carry the same score. *)
Definition distinctScores (l : list Feature) : Prop :=
  forall a b, In a l -> In b l -> tiedWith a b = true -> a = b.

End PlanEffects.

(** ** More of the concrete map *)

Module Scenario.

(** A park inside [Fixture.parcelB] that has an area and no name. *)
Definition parkUnnamed : Feature :=
  mkFeature (RefTurf.box (Fixture.deg (-117156)) (Fixture.deg 32724)
                         (Fixture.deg (-117154)) (Fixture.deg 32726))
            (Fixture.props None (Some 4) None).

(** A trail inside [Fixture.parcelA] that carries an area. *)
Definition trailWithAcres : Feature :=
  mkFeature (LineString [(Fixture.deg (-117168), Fixture.deg 32712);
                         (Fixture.deg (-117166), Fixture.deg 32714)])
            (Fixture.props None (Some 1) (Some "Canyon Trail"%string)).

(** A tract on top of [Fixture.parcelB] with no [percentile]. *)
Definition parcelUnscored : Feature :=
  mkFeature (geometry Fixture.parcelB)
            (Fixture.props None None (Some "unscored"%string)).

(** Everything loaded, two parcels in range, three parks in the second. *)
Definition loadedV2 : MapV2.State :=
  Fixture.stateV2 [Fixture.parcelFar; Fixture.parcelA; Fixture.parcelB]
                  [Fixture.park5; Fixture.park78; Fixture.park32]
                  [Fixture.trailA1].

(** The parks inside the second parcel have no name. *)
Definition unnamedV2 : MapV2.State :=
  Fixture.stateV2 [Fixture.parcelA; Fixture.parcelB] [parkUnnamed] [Fixture.trailA1].

(** [src/src/Map.js] with a best parcel that holds a trail and no park. *)
Definition trailJs : MapJs.State :=
  Fixture.stateJs [Fixture.parcelB; Fixture.parcelA] [Fixture.park5] [trailWithAcres].

(** [src/src/Map.js] and the later revision on the same data. *)
Definition sameDataJs : MapJs.State :=
  Fixture.stateJs [Fixture.parcelFar; Fixture.parcelB; Fixture.parcelB9]
                  [Fixture.park5; Fixture.park78] [Fixture.trailA1].
Definition sameDataV2 : MapV2.State :=
  Fixture.stateV2 [Fixture.parcelFar; Fixture.parcelB; Fixture.parcelB9]
                  [Fixture.park5; Fixture.park78] [Fixture.trailA1].

(** The state a run returns, or the state itself if the run raises. *)
Definition afterV2 (svc : Services) (s : MapV2.State) : MapV2.State :=
  match MapV2.buildHealthyPlan svc s with
  | Js.Normal s' => s'
  | Js.Throw _ => s
  end.

Definition afterJs (svc : Services) (s : MapJs.State) : MapJs.State :=
  match MapJs.buildHealthyPlan svc s with
  | Js.Normal s' => s'
  | Js.Throw _ => s
  end.

End Scenario.

(** * Facts about the array methods *)

Module JsFacts.
Import Js.


Lemma gt_true_iff (a b : Number) :
  gt a b = true <-> exists x y, a = Some x /\ b = Some y /\ y < x.
Proof.
  unfold gt; split.
  - destruct a as [x|], b as [y|]; try discriminate.
    destruct (x ?= y) eqn:E; try discriminate.
    intros _. exists x, y. repeat split. now apply Qgt_alt.
  - intros (x & y & -> & -> & Hlt). apply Qgt_alt in Hlt. now rewrite Hlt.
Qed.

Lemma gt_false_Le (a b : Number) :
  defined a -> defined b -> gt a b = false -> Le a b.
Proof.
  destruct a as [x|], b as [y|]; unfold defined; try congruence.
  intros _ _. unfold gt, Le. destruct (x ?= y) eqn:E; try discriminate; intros _.
  - apply Qeq_alt in E. rewrite E. apply Qle_refl.
  - apply Qlt_alt in E. now apply Qlt_le_weak.
Qed.

Lemma Le_refl (a : Number) : defined a -> Le a a.
Proof. destruct a; unfold defined, Le; [intros _; apply Qle_refl | congruence]. Qed.

Lemma Le_trans (a b c : Number) : Le a b -> Le b c -> Le a c.
Proof.
  destruct a, b, c; simpl; try tauto. apply Qle_trans.
Qed.

Lemma same_refl (a : Number) : defined a -> same a a = true.
Proof.
  destruct a; unfold defined, same; [intros _; apply Qeq_bool_iff; reflexivity | congruence].
Qed.

Lemma same_gt_false (a b : Number) : same a b = true -> gt a b = false.
Proof.
  destruct a as [x|], b as [y|]; simpl; try discriminate.
  intros E. apply Qeq_bool_iff, Qeq_alt in E. now rewrite E.
Qed.

(** A number strictly above [b] is not the same number as [b]. *)
Lemma gt_not_same (a b : Number) : gt a b = true -> same a b = false.
Proof.
  intros Hgt. destruct (same a b) eqn:E; [|reflexivity].
  apply same_gt_false in E. congruence.
Qed.

Section Sort.
Context {A : Type} (comparefn : A -> A -> Number).

Lemma insert_perm (x : A) (l : list A) : Permutation (insert comparefn x l) (x :: l).
Proof.
  induction l as [|y t IH]; simpl; [reflexivity|].
  destruct (after comparefn x y); [|reflexivity].
  rewrite IH. apply perm_swap.
Qed.

Lemma sort_perm (l : list A) : Permutation (sort comparefn l) l.
Proof.
  induction l as [|x t IH]; simpl; [reflexivity|].
  rewrite insert_perm. now constructor.
Qed.

Lemma sort_In (l : list A) (x : A) : In x (sort comparefn l) <-> In x l.
Proof.
  split; apply Permutation_in; [|symmetry]; apply sort_perm.
Qed.

(** Stability: a class of elements that no member is ever moved across
    keeps its input order. *)
Lemma filter_insert (P : A -> bool) (x : A) (l : list A) :
  (forall y, P x = true -> after comparefn x y = true -> P y = false) ->
  filter P (insert comparefn x l) = filter P (x :: l).
Proof.
  intros HP. induction l as [|y t IH]; [reflexivity|].
  simpl insert. destruct (after comparefn x y) eqn:Ha; [|reflexivity].
  simpl in *. rewrite IH.
  destruct (P x) eqn:Px; [|reflexivity].
  now rewrite (HP y eq_refl Ha).
Qed.

Lemma filter_sort (P : A -> bool) (l : list A) :
  (forall x y, P x = true -> after comparefn x y = true -> P y = false) ->
  filter P (sort comparefn l) = filter P l.
Proof.
  intros HP. induction l as [|x t IH]; [reflexivity|].
  simpl sort. rewrite filter_insert by (apply HP).
  simpl. now rewrite IH.
Qed.

End Sort.

(** Sorting by a key, descending: [(a, b) => key(b) - key(a)]. *)
Section SortByKey.
Context {A : Type} (key : A -> Number).

Let comparefn (a b : A) : Number := sub (key b) (key a).

Lemma after_iff (x y : A) :
  after comparefn x y = true <-> gt (key y) (key x) = true.
Proof.
  rewrite gt_true_iff. unfold after, SortCompare, comparefn, sub.
  destruct (key y) as [b|], (key x) as [a|]; cbv beta iota.
  - split.
    + destruct (0 ?= b - a) eqn:E; try discriminate. intros _.
      exists b, a. repeat split. apply Qlt_alt in E. now apply Qlt_minus_iff.
    + intros (b' & a' & Hb & Ha & Hlt). injection Hb as <-. injection Ha as <-.
      assert (E : (0 ?= b - a) = Lt) by (apply Qlt_alt; now apply Qlt_minus_iff in Hlt).
      now rewrite E.
  - split; [discriminate | intros (? & ? & _ & ? & _); discriminate].
  - split; [discriminate | intros (? & ? & ? & _ & _); discriminate].
  - split; [discriminate | intros (? & ? & ? & _ & _); discriminate].
Qed.

Lemma insert_sorted (x : A) (l : list A) :
  defined (key x) -> Forall (fun a => defined (key a)) l ->
  StronglySorted (fun a b => Le (key b) (key a)) l ->
  StronglySorted (fun a b => Le (key b) (key a)) (insert comparefn x l).
Proof.
  intros Hx Hl Hs. induction Hs as [|y t Hs IH Hy]; simpl.
  - repeat constructor.
  - inversion Hl as [|? ? Hdy Hdt]; subst.
    destruct (after comparefn x y) eqn:Ha.
    + constructor; [now apply IH|].
      eapply Permutation_Forall; [symmetry; apply insert_perm|].
      constructor; [|exact Hy].
      apply after_iff, gt_true_iff in Ha.
      destruct Ha as (b & a & -> & -> & Hlt). simpl. now apply Qlt_le_weak.
    + assert (Hxy : Le (key y) (key x)).
      { apply gt_false_Le; trivial.
        destruct (gt (key y) (key x)) eqn:G; [|reflexivity].
        apply after_iff in G. congruence. }
      constructor; [now constructor|].
      constructor; [exact Hxy|].
      eapply Forall_impl; [|exact Hy]. intros a Ha'. simpl in Ha'.
      eapply Le_trans; eassumption.
Qed.

Lemma sort_sorted (l : list A) :
  Forall (fun a => defined (key a)) l ->
  StronglySorted (fun a b => Le (key b) (key a)) (sort comparefn l).
Proof.
  induction l as [|x t IH]; intros Hl; simpl; [constructor|].
  inversion Hl; subst. apply insert_sorted; auto.
  eapply Permutation_Forall; [symmetry; apply sort_perm | assumption].
Qed.

(** The elements that carry one given number keep their input order. *)
Lemma sort_stable (v : Number) (l : list A) :
  filter (fun a => same (key a) v) (sort comparefn l) =
  filter (fun a => same (key a) v) l.
Proof.
  apply filter_sort. intros x y Px Ha.
  apply after_iff in Ha.
  destruct (same (key y) v) eqn:Py; [|reflexivity].
  apply gt_not_same in Ha.
  destruct (key x) as [a|], (key y) as [b|], v as [c|]; simpl in *; try discriminate.
  apply Qeq_bool_iff in Px, Py.
  assert (E : Qeq_bool b a = true) by (apply Qeq_bool_iff; rewrite Py, Px; reflexivity).
  congruence.
Qed.

End SortByKey.

(** Reducing with [(best, current) => key(current) > key(best) ? current : best]. *)
Section ReduceByKey.
Context {A : Type} (key : A -> Number) (callback : A -> A -> A).
Hypothesis callback_spec :
  forall best current,
    callback best current = if gt (key current) (key best) then current else best.

Lemma find_app_l (P : A -> bool) (l l' : list A) (r : A) :
  find P l = Some r -> find P (l ++ l') = Some r.
Proof.
  induction l as [|a l IH]; simpl; [discriminate|].
  destruct (P a); auto.
Qed.

Lemma find_app_r (P : A -> bool) (l l' : list A) :
  (forall a, In a l -> P a = false) -> find P (l ++ l') = find P l'.
Proof.
  induction l as [|a l IH]; simpl; intros Hl; [reflexivity|].
  rewrite (Hl a) by now left. apply IH. intros; apply Hl; now right.
Qed.

(** With every key present, the result is the first element that carries
    the greatest key. *)
Lemma fold_greatest (x : A) (t : list A) :
  Forall (fun a => defined (key a)) (x :: t) ->
  let r := fold_left callback t x in
  In r (x :: t) /\
  (forall q, In q (x :: t) -> Le (key q) (key r)) /\
  find (fun a => same (key a) (key r)) (x :: t) = Some r.
Proof.
  induction t as [|y t IH] using rev_ind; intros Hdef.
  - simpl. inversion Hdef as [|? ? Hx _]; subst. repeat split.
    + now left.
    + intros q [<-|[]]. now apply Le_refl.
    + now rewrite same_refl.
  - rewrite app_comm_cons in Hdef. apply Forall_app in Hdef as [Hdef Hy].
    inversion Hy as [|? ? Hdy _]; subst.
    specialize (IH Hdef). cbv zeta in IH |- *.
    rewrite fold_left_app. simpl fold_left.
    set (r := fold_left callback t x) in *.
    destruct IH as (Hin & Hmax & Hfirst).
    assert (Hdr : defined (key r)).
    { rewrite Forall_forall in Hdef. now apply Hdef. }
    rewrite callback_spec, app_comm_cons.
    destruct (gt (key y) (key r)) eqn:G.
    + repeat split.
      * apply in_or_app. right. now left.
      * intros q Hq. apply in_app_or in Hq as [Hq|[<-|[]]]; [|now apply Le_refl].
        apply Le_trans with (key r); [now apply Hmax|].
        apply gt_true_iff in G. destruct G as (b & a & -> & -> & Hlt).
        simpl. now apply Qlt_le_weak.
      * rewrite find_app_r; [simpl; now rewrite same_refl|].
        intros a Ha. specialize (Hmax a Ha).
        destruct (same (key a) (key y)) eqn:E; [|reflexivity]. exfalso.
        apply gt_true_iff in G. destruct G as (b & c & Eb & Ec & Hlt).
        rewrite Eb, Ec in *. destruct (key a) as [d|]; simpl in *; [|discriminate].
        apply Qeq_bool_iff in E. rewrite E in Hmax.
        exact (Qlt_irrefl _ (Qlt_le_trans _ _ _ Hlt Hmax)).
    + repeat split.
      * apply in_or_app. now left.
      * intros q Hq. apply in_app_or in Hq as [Hq|[<-|[]]]; [now apply Hmax|].
        now apply gt_false_Le.
      * now apply find_app_l.
Qed.

(** An element whose key is missing is never picked over the running
    result: the result is the first element or carries a key. *)
Lemma fold_first_or_defined (x : A) (t : list A) :
  fold_left callback t x = x \/ defined (key (fold_left callback t x)).
Proof.
  induction t as [|y t IH] using rev_ind; [now left|].
  rewrite fold_left_app. simpl. rewrite callback_spec.
  destruct (gt (key y) (key (fold_left callback t x))) eqn:G; [|exact IH].
  right. apply gt_true_iff in G. destruct G as (b & a & -> & _). discriminate.
Qed.

(** A first element whose key is missing is never replaced. *)
Lemma fold_missing_first (x : A) (t : list A) :
  key x = None -> fold_left callback t x = x.
Proof.
  intros Hx. induction t as [|y t IH] using rev_ind; [reflexivity|].
  rewrite fold_left_app. simpl. rewrite callback_spec, IH, Hx.
  now destruct (key y).
Qed.

End ReduceByKey.

(** Searching a list. *)
Section Find.
Context {A : Type}.

Lemma find_filter (h P : A -> bool) (l : list A) (p : A) :
  find h l = Some p -> P p = true -> find h (filter P l) = Some p.
Proof.
  induction l as [|a l IH]; simpl; [discriminate|].
  destruct (h a) eqn:Ha.
  - intros [= ->] Pp. rewrite Pp. simpl. now rewrite Ha.
  - intros Hf Pp. destruct (P a); [simpl; rewrite Ha|]; auto.
Qed.

Lemma find_sorted (R : A -> A -> Prop) (h : A -> bool) (l : list A) (p : A) :
  StronglySorted R l -> find h l = Some p ->
  forall q, In q l -> h q = true -> q = p \/ R p q.
Proof.
  induction 1 as [|a l Hs IH Ha]; simpl; [discriminate|].
  destruct (h a) eqn:E.
  - intros [= ->] q [<-|Hq] _; [now left|right].
    rewrite Forall_forall in Ha. now apply Ha.
  - intros Hf q [<-|Hq] Hq'; [congruence|]. now apply IH.
Qed.

End Find.

End JsFacts.

(** * Running the geometry *)

Example refTurf_inside :
  RefTurf.booleanPointInPolygon (RefTurf.center (RefTurf.box 0 0 2 2)) (RefTurf.box 0 0 2 2) = true
  /\ RefTurf.booleanPointInPolygon (3, 1) (RefTurf.box 0 0 2 2) = false
  /\ RefTurf.center (RefTurf.box 0 0 2 4) = (1, 2).
Proof. vm_compute. repeat split; reflexivity. Qed.

Example geometry_of_the_map :
  withinRadius Fixture.userLocation 2 [Fixture.parcelFar; Fixture.parcelA; Fixture.parcelB]
    = [Fixture.parcelA; Fixture.parcelB]
  /\ inParcel Fixture.parcelB [Fixture.park5; Fixture.park32; Fixture.parkNoAcres]
     = [Fixture.park5; Fixture.park32; Fixture.parkNoAcres]
  /\ inParcel Fixture.parcelA [Fixture.park5; Fixture.park32; Fixture.parkNoAcres] = []
  /\ inParcel Fixture.parcelA [Fixture.trailLA; Fixture.trailA1; Fixture.trailA2]
     = [Fixture.trailA1; Fixture.trailA2]
  /\ inParcel Fixture.parcelB [Fixture.trailLA; Fixture.trailA1; Fixture.trailA2] = [].
Proof. vm_compute. repeat split; reflexivity. Qed.

(** * Facts about filtering *)

Lemma filter_Subsequence {A : Type} (f : A -> bool) (l : list A) :
  Subsequence (filter f l) l.
Proof.
  induction l as [|x l IH]; simpl; [constructor|].
  destruct (f x); now constructor.
Qed.

Lemma filter_idempotent {A : Type} (f : A -> bool) (l : list A) :
  filter f (filter f l) = filter f l.
Proof.
  induction l as [|x l IH]; simpl; [reflexivity|].
  destruct (f x) eqn:E; simpl; [rewrite E|]; congruence.
Qed.

Lemma hd_filter_find {A : Type} (f : A -> bool) (l : list A) :
  nth_error (filter f l) 0 = find f l.
Proof.
  induction l as [|x l IH]; simpl; [reflexivity|].
  destruct (f x); auto.
Qed.

Lemma length_pos_cons {A : Type} (l : list A) :
  (0 <? List.length l)%nat = true <-> l <> [].
Proof.
  destruct l; simpl; split; try congruence; try discriminate. reflexivity.
Qed.


(** * The radius filter *)

Section SpatialFilter.
Context `{Turf}.

(** C9. Filtering the result of the radius filter again, with the same
    origin and radius, gives the same collection; the filter keeps the
    input order, and keeps exactly the candidates whose centre is inside
    the buffer. *)
Theorem withinRadius_idempotent (origin : Position) (radiusMiles : Q)
    (candidates : list Feature) :
  withinRadius origin radiusMiles (withinRadius origin radiusMiles candidates)
    = withinRadius origin radiusMiles candidates
  /\ Subsequence (withinRadius origin radiusMiles candidates) candidates
  /\ forall f, In f (withinRadius origin radiusMiles candidates) <->
               In f candidates /\
               booleanPointInPolygon (center (geometry f)) (buffer origin radiusMiles) = true.
Proof.
  unfold withinRadius. split; [|split].
  - apply filter_idempotent.
  - apply filter_Subsequence.
  - intros f. apply filter_In.
Qed.

End SpatialFilter.

(** * The bounding box at load time *)

Section BoundingBox.
Context `{Turf}.

Lemma tagSelected_geometry (parkId : option string) (park : Feature) :
  geometry (MapV2.tagSelected parkId park) = geometry park.
Proof. reflexivity. Qed.

Lemma buildHealthyPlan_parks (svc : Services) (s s' : MapV2.State) :
  MapV2.buildHealthyPlan svc s = Js.Normal s' ->
  MapV2.environmentalData s' = MapV2.environmentalData s /\
  MapV2.bikePaths s' = MapV2.bikePaths s /\
  (MapV2.parks s' = MapV2.parks s \/
   exists parkId fc, MapV2.parks s = Some fc /\
     MapV2.parks s' =
       Some (mkFeatureCollection (List.map (MapV2.tagSelected parkId) (features fc)))).
Proof.
  unfold MapV2.buildHealthyPlan.
  destruct (MapV2.findBestEnvironmentalParcel _ _ _) as [bestParcel|];
    [|intros [= <-]; auto].
  destruct (findBiggestParkOrTrail _ _ _) as [[bestLocation|]|]; simpl;
    [|intros [= <-]; auto|discriminate].
  destruct (generateParkGuide svc bestLocation) as [g|]; simpl; [|discriminate].
  intros [= <-].
  destruct (MapV2.parks s) as [fc|] eqn:Eparks,
    (Js.truthy (common_name (properties bestLocation))),
    (MapV2.map s), (MapV2.userLocation s), (MapV2.bikePathsContent s);
    simpl; rewrite ?Eparks; repeat split; eauto.
Qed.

(** C3 (amended). The parks and the environmental parcels are filtered to
    the San Diego box when they are fetched, and every later state of the
    plan builder keeps them inside it; the bike paths are stored as the
    bundled dataset gives them, without the filter. *)
Theorem fetched_collections_within_San_Diego :
  (forall response previous,
      allWithinSanDiego previous ->
      allWithinSanDiego (fetchEnvironmentalData response previous)) /\
  (forall response previous,
      allWithinSanDiego previous ->
      allWithinSanDiego (fetchParks response previous)) /\
  (forall svc s s',
      allWithinSanDiego (MapV2.parks s) ->
      allWithinSanDiego (MapV2.environmentalData s) ->
      MapV2.buildHealthyPlan svc s = Js.Normal s' ->
      allWithinSanDiego (MapV2.parks s') /\
      allWithinSanDiego (MapV2.environmentalData s')) /\
  (forall bikePathsData, loadBikePaths bikePathsData = Some bikePathsData).
Proof.
  split; [|split; [|split]].
  - intros [data|e] previous Hprev; simpl; [|exact Hprev].
    intros fc [= <-]. simpl. apply Forall_forall. intros f Hf.
    now apply filter_In in Hf.
  - intros [data|e] previous Hprev; simpl; [|exact Hprev].
    intros fc [= <-]. simpl. apply Forall_forall. intros f Hf.
    now apply filter_In in Hf.
  - intros svc s s' Hparks Henv Hrun.
    destruct (buildHealthyPlan_parks _ _ _ Hrun) as (-> & _ & Hparks').
    split; [|exact Henv].
    destruct Hparks' as [->|(parkId & fc & E & ->)]; [exact Hparks|].
    intros fc' [= <-]. simpl. specialize (Hparks fc E).
    apply Forall_forall. intros f Hf. apply in_map_iff in Hf as (g & <- & Hg).
    rewrite tagSelected_geometry. rewrite Forall_forall in Hparks. now apply Hparks.
  - reflexivity.
Qed.

End BoundingBox.

(** The bundled trail dataset is not filtered: a trail in Los Angeles
    stays in the collection the pipeline consults. *)
Lemma bike_paths_outside_San_Diego :
  ~ allWithinSanDiego (loadBikePaths (mkFeatureCollection [Fixture.trailLA])).
Proof.
  intros Hall. specialize (Hall _ eq_refl). inversion Hall as [|? ? Hin _]; subst.
  vm_compute in Hin. discriminate.
Qed.

Lemma fetched_collections_witness :
  allWithinSanDiego None /\
  allWithinSanDiego
    (fetchParks (Js.Normal [mkEsriFeature [[(Fixture.deg (-118250), Fixture.deg 34050)]]
                                          (Fixture.props None (Some 1) None);
                            mkEsriFeature [[Fixture.userLocation]]
                                          (Fixture.props None (Some 2) None)])
                None).
Proof.
  assert (Hnone : allWithinSanDiego None) by (intros fc; discriminate).
  split; [exact Hnone|].
  exact (proj1 (proj2 fetched_collections_within_San_Diego) _ None Hnone).
Defined.

(** * No parcel in range *)

Section NoParcelInRange.
Context `{Turf}.

(** [src/src/Map.js]: reducing the empty list of in-range parcels raises. *)
Lemma MapJs_nothing_in_range (svc : Services) (s : MapJs.State)
    (loc : Position) (env : FeatureCollection) :
  MapJs.userLocation s = Some loc ->
  MapJs.environmentalData s = Some env ->
  withinRadius loc 2 (features env) = [] ->
  MapJs.buildHealthyPlan svc s
    = Js.Throw (Js.TypeError "Reduce of empty array with no initial value").
Proof.
  intros Hloc Henv Hnone. unfold MapJs.buildHealthyPlan, MapJs.findBestEnvironmentalParcel.
  rewrite Hloc, Henv, Hnone. reflexivity.
Qed.

Lemma firstParcelWithPark_find (parks : FeatureCollection) (l : list Feature) :
  MapV2.firstParcelWithPark parks l = find (hasPark parks) l.
Proof.
  induction l as [|parcel rest IH]; simpl; [reflexivity|].
  unfold hasPark at 1. now rewrite IH.
Qed.

(** The later revision: the loop over no parcel returns [null], and the
    plan builder leaves the state as it is. *)
Lemma MapV2_nothing_in_range (svc : Services) (s : MapV2.State) :
  (forall loc env,
      MapV2.userLocation s = Some loc -> MapV2.environmentalData s = Some env ->
      withinRadius loc 2 (features env) = []) ->
  MapV2.buildHealthyPlan svc s = Js.Normal s.
Proof.
  intros Hnone. unfold MapV2.buildHealthyPlan, MapV2.findBestEnvironmentalParcel.
  destruct (MapV2.userLocation s) as [loc|]; [|reflexivity].
  destruct (MapV2.environmentalData s) as [env|]; [|reflexivity].
  destruct (MapV2.parks s) as [parks|]; [|reflexivity].
  now rewrite (Hnone loc env eq_refl eq_refl).
Qed.

End NoParcelInRange.

(** C2. With the user located and the parcels loaded, but no parcel in
    range (an empty collection, or only a far parcel), the plan builder of
    [src/src/Map.js] raises a TypeError; the later revision returns with
    the state unchanged and no plan. *)
Theorem MapJs_no_parcel_in_range_raises :
  MapJs.buildHealthyPlan Fixture.servicesUp
      (Fixture.stateJs [] [Fixture.park5] [Fixture.trailA1])
    = Js.Throw (Js.TypeError "Reduce of empty array with no initial value")
  /\ MapJs.buildHealthyPlan Fixture.servicesUp
      (Fixture.stateJs [Fixture.parcelFar] [Fixture.park5] [Fixture.trailA1])
    = Js.Throw (Js.TypeError "Reduce of empty array with no initial value")
  /\ MapV2.buildHealthyPlan Fixture.servicesUp
      (Fixture.stateV2 [Fixture.parcelFar] [Fixture.park5] [Fixture.trailA1])
    = Js.Normal (Fixture.stateV2 [Fixture.parcelFar] [Fixture.park5] [Fixture.trailA1]).
Proof.
  split; [|split].
  - now apply (MapJs_nothing_in_range _ _ Fixture.userLocation (mkFeatureCollection [])).
  - now apply (MapJs_nothing_in_range _ _ Fixture.userLocation
                 (mkFeatureCollection [Fixture.parcelFar])).
  - apply MapV2_nothing_in_range. intros loc env [= <-] [= <-]. reflexivity.
Qed.

(** * The parcel ranker *)

Section ParcelRanker.
Context `{Turf}.

Lemma ranked_sorted (l : list Feature) :
  Forall scored l ->
  StronglySorted
    (fun a b => Js.Le (percentile (properties b)) (percentile (properties a)))
    (Js.sort MapV2.byPercentileDesc l).
Proof.
  apply (JsFacts.sort_sorted (fun f => percentile (properties f))).
Qed.

Lemma findBestEnvironmentalParcel_find
    (userLocation : Position) (environmentalData parks : FeatureCollection) :
  MapV2.findBestEnvironmentalParcel
    (Some userLocation) (Some environmentalData) (Some parks)
  = find (hasPark parks)
         (Js.sort MapV2.byPercentileDesc
            (withinRadius userLocation 2 (features environmentalData))).
Proof. unfold MapV2.findBestEnvironmentalParcel. apply firstParcelWithPark_find. Qed.

(** The first ranked parcel with a park has the greatest score among the
    parcels with a park. *)
Lemma first_ranked_is_greatest (parks : FeatureCollection) (l : list Feature)
    (best : Feature) :
  Forall scored l ->
  find (hasPark parks) (Js.sort MapV2.byPercentileDesc l) = Some best ->
  forall parcel, In parcel l -> hasPark parks parcel = true ->
    Js.Le (percentile (properties parcel)) (percentile (properties best)).
Proof.
  intros Hscored Hfind parcel Hparcel Hp.
  destruct (JsFacts.find_sorted _ _ _ _ (ranked_sorted _ Hscored) Hfind parcel)
    as [->|Hle]; trivial.
  - now apply JsFacts.sort_In.
  - apply JsFacts.Le_refl.
    apply find_some in Hfind as [Hin _]. apply JsFacts.sort_In in Hin.
    rewrite Forall_forall in Hscored. now apply Hscored.
Qed.

(** C1 (amended). Among the parcels whose centre is inside the 2-mile
    buffer, the ranker returns the one with the highest score that has at
    least one park with its centre inside the parcel; a higher-scored
    parcel with no park in it is passed over, and [null] is returned when
    no in-range parcel has a park.  Trails are not looked at. *)
Theorem findBestEnvironmentalParcel_best_with_park
    (userLocation : Position) (environmentalData parks : FeatureCollection) :
  Forall scored (withinRadius userLocation 2 (features environmentalData)) ->
  match MapV2.findBestEnvironmentalParcel
          (Some userLocation) (Some environmentalData) (Some parks) with
  | Some best =>
      In best (withinRadius userLocation 2 (features environmentalData)) /\
      hasPark parks best = true /\
      forall parcel,
        In parcel (withinRadius userLocation 2 (features environmentalData)) ->
        hasPark parks parcel = true ->
        Js.Le (percentile (properties parcel)) (percentile (properties best))
  | None =>
      forall parcel,
        In parcel (withinRadius userLocation 2 (features environmentalData)) ->
        hasPark parks parcel = false
  end.
Proof.
  intros Hscored. rewrite findBestEnvironmentalParcel_find.
  set (inRange := withinRadius userLocation 2 (features environmentalData)) in *.
  destruct (find (hasPark parks) (Js.sort MapV2.byPercentileDesc inRange))
    as [best|] eqn:Hfind.
  - destruct (find_some _ _ Hfind) as [Hin Hpark].
    apply JsFacts.sort_In in Hin. repeat split; trivial.
    now apply first_ranked_is_greatest.
  - intros parcel Hparcel.
    apply (find_none _ _ Hfind). now apply JsFacts.sort_In.
Qed.

End ParcelRanker.

Example ranker_runs :
  MapV2.findBestEnvironmentalParcel (Some Fixture.userLocation)
    (Fixture.fc [Fixture.parcelFar; Fixture.parcelB; Fixture.parcelA])
    (Fixture.fc [Fixture.park5]) = Some Fixture.parcelB
  /\ MapV2.findBestEnvironmentalParcel (Some Fixture.userLocation)
    (Fixture.fc [Fixture.parcelFar; Fixture.parcelA]) (Fixture.fc [Fixture.park5]) = None.
Proof. split; vm_compute; reflexivity. Qed.

Lemma findBestEnvironmentalParcel_witness :
  Forall scored (withinRadius Fixture.userLocation 2
                   [Fixture.parcelFar; Fixture.parcelB; Fixture.parcelA]) /\
  match MapV2.findBestEnvironmentalParcel (Some Fixture.userLocation)
          (Some (mkFeatureCollection [Fixture.parcelFar; Fixture.parcelB; Fixture.parcelA]))
          (Some (mkFeatureCollection [Fixture.park5])) with
  | Some best =>
      In best (withinRadius Fixture.userLocation 2
                 [Fixture.parcelFar; Fixture.parcelB; Fixture.parcelA]) /\
      hasPark (mkFeatureCollection [Fixture.park5]) best = true /\
      forall parcel,
        In parcel (withinRadius Fixture.userLocation 2
                     [Fixture.parcelFar; Fixture.parcelB; Fixture.parcelA]) ->
        hasPark (mkFeatureCollection [Fixture.park5]) parcel = true ->
        Js.Le (percentile (properties parcel)) (percentile (properties best))
  | None =>
      forall parcel,
        In parcel (withinRadius Fixture.userLocation 2
                     [Fixture.parcelFar; Fixture.parcelB; Fixture.parcelA]) ->
        hasPark (mkFeatureCollection [Fixture.park5]) parcel = false
  end.
Proof.
  assert (Hscored : Forall scored (withinRadius Fixture.userLocation 2
                     [Fixture.parcelFar; Fixture.parcelB; Fixture.parcelA])).
  { vm_compute. repeat constructor; discriminate. }
  split; [exact Hscored|].
  exact (findBestEnvironmentalParcel_best_with_park Fixture.userLocation
           (mkFeatureCollection [Fixture.parcelFar; Fixture.parcelB; Fixture.parcelA])
           (mkFeatureCollection [Fixture.park5]) Hscored).
Defined.

(** The higher-scored parcel A holds a trail, which the destination
    selector would accept, and no park; the ranker returns B. *)
Lemma ranker_ignores_trails :
  MapV2.findBestEnvironmentalParcel (Some Fixture.userLocation)
    (Fixture.fc [Fixture.parcelA; Fixture.parcelB])
    (Fixture.fc [Fixture.park5]) = Some Fixture.parcelB
  /\ In Fixture.parcelA
        (withinRadius Fixture.userLocation 2 [Fixture.parcelA; Fixture.parcelB])
  /\ inParcel Fixture.parcelA [Fixture.trailA1] = [Fixture.trailA1]
  /\ findBiggestParkOrTrail (Fixture.fc [Fixture.park5]) (Fixture.fc [Fixture.trailA1])
       Fixture.parcelA = Js.Normal (Some Fixture.trailA1)
  /\ Js.gt (percentile (properties Fixture.parcelA))
           (percentile (properties Fixture.parcelB)) = true.
Proof.
  split; [vm_compute; reflexivity|].
  split; [vm_compute; left; reflexivity|].
  repeat split; vm_compute; reflexivity.
Qed.

(** * Ties between parcels *)

Section Ties.
Context `{Turf}.

Lemma better_spec (best current : Feature) :
  MapJs.better best current =
  if Js.gt (percentile (properties current)) (percentile (properties best))
  then current else best.
Proof. reflexivity. Qed.

Lemma find_filter_swap {A : Type} (h P : A -> bool) (l : list A) :
  find h (filter P l) = find P (filter h l).
Proof.
  induction l as [|a l IH]; simpl; [reflexivity|].
  destruct (P a) eqn:Pa, (h a) eqn:Ha; simpl; rewrite ?Pa, ?Ha; auto.
Qed.


(** C5 (amended). Parcels with equal scores keep their input order in
    the ranking.  In [src/src/Map.js], with a parcel in range, the ranker
    selects the first-listed of the in-range parcels with the greatest
    score.  In the later revision, with a parcel in range that has a park
    in it, the ranker selects the first-listed of the in-range parcels
    with a park in them that have the greatest score among those. *)
Theorem ties_keep_input_order
    (userLocation : Position) (environmentalData parks : FeatureCollection) :
  Forall scored (withinRadius userLocation 2 (features environmentalData)) ->
  (forall score,
      filter (fun f => Js.same (percentile (properties f)) score)
             (Js.sort MapV2.byPercentileDesc
                (withinRadius userLocation 2 (features environmentalData)))
      = filter (fun f => Js.same (percentile (properties f)) score)
               (withinRadius userLocation 2 (features environmentalData))) /\
  (withinRadius userLocation 2 (features environmentalData) <> [] ->
   exists best,
      MapJs.findBestEnvironmentalParcel (Some userLocation) (Some environmentalData)
        = Js.Normal (Some best) /\
      find (tiedWith best) (withinRadius userLocation 2 (features environmentalData))
        = Some best /\
      forall parcel,
        In parcel (withinRadius userLocation 2 (features environmentalData)) ->
        Js.Le (percentile (properties parcel)) (percentile (properties best))) /\
  (filter (hasPark parks) (withinRadius userLocation 2 (features environmentalData))
     <> [] ->
   exists best,
      MapV2.findBestEnvironmentalParcel
        (Some userLocation) (Some environmentalData) (Some parks) = Some best /\
      find (tiedWith best)
           (filter (hasPark parks)
                   (withinRadius userLocation 2 (features environmentalData)))
        = Some best /\
      forall parcel,
        In parcel (filter (hasPark parks)
                     (withinRadius userLocation 2 (features environmentalData))) ->
        Js.Le (percentile (properties parcel)) (percentile (properties best))).
Proof.
  intros Hscored.
  set (inRange := withinRadius userLocation 2 (features environmentalData)) in *.
  split; [|split].
  - intros score. apply (JsFacts.sort_stable (fun f => percentile (properties f))).
  - intros Hsome. unfold MapJs.findBestEnvironmentalParcel. fold inRange.
    destruct inRange as [|first rest] eqn:E; [congruence|].
    simpl. exists (fold_left MapJs.better rest first). split; [reflexivity|].
    destruct (JsFacts.fold_greatest (fun f => percentile (properties f))
                MapJs.better better_spec first rest Hscored) as (_ & Hmax & Hfirst).
    split; [exact Hfirst | exact Hmax].
  - intros Hsome. rewrite findBestEnvironmentalParcel_find. fold inRange.
    destruct (find (hasPark parks) (Js.sort MapV2.byPercentileDesc inRange))
      as [best|] eqn:Hbest.
    + exists best. split; [reflexivity|]. split.
      * rewrite <- find_filter_swap.
        unfold tiedWith.
        rewrite <- (JsFacts.sort_stable (fun f => percentile (properties f))).
        apply JsFacts.find_filter; [exact Hbest|].
        apply JsFacts.same_refl.
        apply find_some in Hbest as [Hin _]. apply JsFacts.sort_In in Hin.
        rewrite Forall_forall in Hscored. now apply Hscored.
      * intros parcel Hparcel. apply filter_In in Hparcel as [Hp Hq].
        now apply (first_ranked_is_greatest parks inRange).
    + exfalso. destruct (filter (hasPark parks) inRange) as [|q l] eqn:E; [congruence|].
      assert (Hq : In q (filter (hasPark parks) inRange)) by (rewrite E; now left).
      apply filter_In in Hq as [Hin Hpark].
      apply JsFacts.sort_In with (comparefn := MapV2.byPercentileDesc) in Hin.
      rewrite (find_none _ _ Hbest _ Hin) in Hpark. discriminate.
Qed.

End Ties.

Example tied_parcels_run :
  MapJs.findBestEnvironmentalParcel (Some Fixture.userLocation)
    (Fixture.fc [Fixture.parcelB; Fixture.parcelA; Fixture.parcelB9])
    = Js.Normal (Some Fixture.parcelA)
  /\ MapJs.findBestEnvironmentalParcel (Some Fixture.userLocation)
    (Fixture.fc [Fixture.parcelB; Fixture.parcelB9; Fixture.parcelA])
    = Js.Normal (Some Fixture.parcelB9)
  /\ Js.sort MapV2.byPercentileDesc
       [Fixture.parcelB; Fixture.parcelB9; Fixture.parcelA; Fixture.parcelB9b]
     = [Fixture.parcelB9; Fixture.parcelA; Fixture.parcelB9b; Fixture.parcelB]
  /\ MapV2.findBestEnvironmentalParcel (Some Fixture.userLocation)
    (Fixture.fc [Fixture.parcelB; Fixture.parcelA; Fixture.parcelB9; Fixture.parcelB9b])
    (Fixture.fc [Fixture.park5]) = Some Fixture.parcelB9
  /\ MapV2.findBestEnvironmentalParcel (Some Fixture.userLocation)
    (Fixture.fc [Fixture.parcelB; Fixture.parcelA; Fixture.parcelB9b; Fixture.parcelB9])
    (Fixture.fc [Fixture.park5]) = Some Fixture.parcelB9b.
Proof. repeat split; vm_compute; reflexivity. Qed.

Lemma ties_keep_input_order_witness :
  Forall scored (withinRadius Fixture.userLocation 2
                   [Fixture.parcelB; Fixture.parcelB9; Fixture.parcelA; Fixture.parcelB9b]) /\
  withinRadius Fixture.userLocation 2
    [Fixture.parcelB; Fixture.parcelB9; Fixture.parcelA; Fixture.parcelB9b] <> [] /\
  filter (hasPark (mkFeatureCollection [Fixture.park5]))
    (withinRadius Fixture.userLocation 2
       [Fixture.parcelB; Fixture.parcelB9; Fixture.parcelA; Fixture.parcelB9b]) <> [] /\
  (exists best,
     MapJs.findBestEnvironmentalParcel (Some Fixture.userLocation)
       (Some (mkFeatureCollection
                [Fixture.parcelB; Fixture.parcelB9; Fixture.parcelA; Fixture.parcelB9b]))
       = Js.Normal (Some best) /\
     find (tiedWith best)
          (withinRadius Fixture.userLocation 2
             [Fixture.parcelB; Fixture.parcelB9; Fixture.parcelA; Fixture.parcelB9b])
       = Some best /\
     forall parcel,
       In parcel (withinRadius Fixture.userLocation 2
                    [Fixture.parcelB; Fixture.parcelB9; Fixture.parcelA;
                     Fixture.parcelB9b]) ->
       Js.Le (percentile (properties parcel)) (percentile (properties best))) /\
  (exists best,
     MapV2.findBestEnvironmentalParcel (Some Fixture.userLocation)
       (Some (mkFeatureCollection
                [Fixture.parcelB; Fixture.parcelB9; Fixture.parcelA; Fixture.parcelB9b]))
       (Some (mkFeatureCollection [Fixture.park5])) = Some best /\
     find (tiedWith best)
          (filter (hasPark (mkFeatureCollection [Fixture.park5]))
             (withinRadius Fixture.userLocation 2
                [Fixture.parcelB; Fixture.parcelB9; Fixture.parcelA; Fixture.parcelB9b]))
       = Some best /\
     forall parcel,
       In parcel (filter (hasPark (mkFeatureCollection [Fixture.park5]))
                    (withinRadius Fixture.userLocation 2
                       [Fixture.parcelB; Fixture.parcelB9; Fixture.parcelA;
                        Fixture.parcelB9b])) ->
       Js.Le (percentile (properties parcel)) (percentile (properties best))).
Proof.
  assert (Hscored : Forall scored (withinRadius Fixture.userLocation 2
            [Fixture.parcelB; Fixture.parcelB9; Fixture.parcelA; Fixture.parcelB9b])).
  { vm_compute. repeat constructor; discriminate. }
  assert (Hrange : withinRadius Fixture.userLocation 2
            [Fixture.parcelB; Fixture.parcelB9; Fixture.parcelA; Fixture.parcelB9b] <> [])
    by (vm_compute; discriminate).
  assert (Hparks : filter (hasPark (mkFeatureCollection [Fixture.park5]))
            (withinRadius Fixture.userLocation 2
               [Fixture.parcelB; Fixture.parcelB9; Fixture.parcelA; Fixture.parcelB9b])
            <> []) by (vm_compute; discriminate).
  pose proof (ties_keep_input_order Fixture.userLocation
                (mkFeatureCollection
                   [Fixture.parcelB; Fixture.parcelB9; Fixture.parcelA; Fixture.parcelB9b])
                (mkFeatureCollection [Fixture.park5]) Hscored) as (_ & HJs & HV2).
  split; [exact Hscored|]. split; [exact Hrange|]. split; [exact Hparks|].
  split; [exact (HJs Hrange) | exact (HV2 Hparks)].
Defined.

(** In range are B (0.7), then A and B9 (0.9 each); the only park is
    inside B and B9.  The first-listed parcel of greatest score is A, and
    the later revision returns B9. *)
Lemma first_listed_maximum_passed_over :
  withinRadius Fixture.userLocation 2 [Fixture.parcelB; Fixture.parcelA; Fixture.parcelB9]
    = [Fixture.parcelB; Fixture.parcelA; Fixture.parcelB9]
  /\ MapV2.findBestEnvironmentalParcel (Some Fixture.userLocation)
       (Fixture.fc [Fixture.parcelB; Fixture.parcelA; Fixture.parcelB9])
       (Fixture.fc [Fixture.park5]) = Some Fixture.parcelB9
  /\ find (tiedWith Fixture.parcelB9)
          [Fixture.parcelB; Fixture.parcelA; Fixture.parcelB9] = Some Fixture.parcelA
  /\ (forall parcel,
        In parcel [Fixture.parcelB; Fixture.parcelA; Fixture.parcelB9] ->
        Js.Le (percentile (properties parcel)) (percentile (properties Fixture.parcelA)))
  /\ Fixture.parcelA <> Fixture.parcelB9.
Proof.
  split; [vm_compute; reflexivity|].
  split; [vm_compute; reflexivity|].
  split; [vm_compute; reflexivity|].
  split.
  - intros parcel [<-|[<-|[<-|[]]]]; vm_compute; discriminate.
  - intros E. apply (f_equal (fun f => common_name (properties f))) in E. discriminate E.
Qed.

(** * The destination selector *)

Section DestinationSelector.
Context `{Turf}.

Lemma bigger_spec (biggest current : Feature) :
  bigger biggest current =
  if Js.gt (acres (properties current)) (acres (properties biggest))
  then current else biggest.
Proof. reflexivity. Qed.

Lemma fold_bigger_In (first : Feature) (rest : list Feature) :
  In (fold_left bigger rest first) (first :: rest).
Proof.
  revert first. induction rest as [|y rest IH]; intros first; [now left|].
  simpl fold_left. destruct (IH (bigger first y)) as [Hb|Hb].
  - rewrite <- Hb. unfold bigger. destruct (Js.gt _ _); [right|]; now left.
  - now right; right.
Qed.

(** What the selector computes, by cases on the parks inside the parcel. *)
Lemma findBiggestParkOrTrail_cases (parks bikePaths : FeatureCollection) (parcel : Feature) :
  findBiggestParkOrTrail (Some parks) (Some bikePaths) parcel =
  match inParcel parcel (features parks) with
  | first :: rest => Js.Normal (Some (fold_left bigger rest first))
  | [] => Js.Normal (find (inside parcel) (features bikePaths))
  end.
Proof.
  unfold findBiggestParkOrTrail.
  destruct (inParcel parcel (features parks)) as [|first rest]; [|reflexivity].
  cbn [List.length Nat.ltb Nat.leb]. f_equal.
  rewrite <- hd_filter_find.
  change (inParcel parcel (features bikePaths))
    with (filter (inside parcel) (features bikePaths)).
  now destruct (filter (inside parcel) (features bikePaths)).
Qed.

(** C6. When the parks inside the parcel all carry an area, the selector
    returns the one with the largest area, and of several with that area
    the first in input order. *)
Theorem findBiggestParkOrTrail_largest
    (parks bikePaths : FeatureCollection) (parcel : Feature) :
  inParcel parcel (features parks) <> [] ->
  Forall surveyed (inParcel parcel (features parks)) ->
  exists biggest,
    findBiggestParkOrTrail (Some parks) (Some bikePaths) parcel
      = Js.Normal (Some biggest) /\
    In biggest (inParcel parcel (features parks)) /\
    (forall park, In park (inParcel parcel (features parks)) ->
                  Js.Le (acres (properties park)) (acres (properties biggest))) /\
    find (fun park => Js.same (acres (properties park)) (acres (properties biggest)))
         (inParcel parcel (features parks)) = Some biggest.
Proof.
  intros Hne Hsurveyed. rewrite findBiggestParkOrTrail_cases.
  destruct (inParcel parcel (features parks)) as [|first rest]; [congruence|].
  exists (fold_left bigger rest first). split; [reflexivity|].
  exact (JsFacts.fold_greatest (fun f => acres (properties f)) bigger bigger_spec
           first rest Hsurveyed).
Qed.

(** C7. With at least one park inside the parcel the selector returns one
    of those parks, whatever the trails; with none it returns the first
    trail, in input order, whose centre is inside the parcel, and [null]
    if there is no such trail. *)
Theorem findBiggestParkOrTrail_park_before_trail
    (parks bikePaths : FeatureCollection) (parcel : Feature) :
  match inParcel parcel (features parks) with
  | _ :: _ =>
      exists park,
        findBiggestParkOrTrail (Some parks) (Some bikePaths) parcel
          = Js.Normal (Some park) /\
        In park (features parks) /\ inside parcel park = true
  | [] =>
      findBiggestParkOrTrail (Some parks) (Some bikePaths) parcel
        = Js.Normal (find (inside parcel) (features bikePaths)) /\
      (find (inside parcel) (features bikePaths) = None <->
       inParcel parcel (features bikePaths) = [])
  end.
Proof.
  rewrite findBiggestParkOrTrail_cases.
  destruct (inParcel parcel (features parks)) as [|first rest] eqn:E.
  - split; [reflexivity|]. unfold inParcel. fold (inside parcel).
    rewrite <- hd_filter_find.
    destruct (filter (inside parcel) (features bikePaths)); simpl; split; congruence.
  - exists (fold_left bigger rest first). split; [reflexivity|].
    assert (Hin : In (fold_left bigger rest first) (inParcel parcel (features parks)))
      by (rewrite E; apply fold_bigger_In).
    now apply filter_In in Hin.
Qed.

(** C4 (amended). A feature whose numeric key is absent never takes the
    place of a candidate listed before it.  Among the parks inside the
    parcel, the selector returns a park with no [acres] only when it is
    the first of them in input order, and then it returns it whatever the
    areas of the later parks.  Among the parcels in range, the ranker of
    [src/src/Map.js] returns a parcel with no [percentile] only when it is
    the first of them, and then it returns it whatever the scores of the
    later parcels. *)
Theorem findBiggestParkOrTrail_missing_acres :
  (forall parks bikePaths parcel first rest,
      inParcel parcel (features parks) = first :: rest ->
      exists park,
        findBiggestParkOrTrail (Some parks) (Some bikePaths) parcel
          = Js.Normal (Some park) /\
        (acres (properties park) = None -> park = first) /\
        (acres (properties first) = None -> park = first)) /\
  (forall userLocation environmentalData first rest,
      withinRadius userLocation 2 (features environmentalData) = first :: rest ->
      exists best,
        MapJs.findBestEnvironmentalParcel (Some userLocation) (Some environmentalData)
          = Js.Normal (Some best) /\
        (percentile (properties best) = None -> best = first) /\
        (percentile (properties first) = None -> best = first)).
Proof.
  split.
  - intros parks bikePaths parcel first rest E.
    rewrite findBiggestParkOrTrail_cases, E.
    exists (fold_left bigger rest first). split; [reflexivity|]. split.
    + intros Hnone.
      destruct (JsFacts.fold_first_or_defined (fun f => acres (properties f))
                  bigger bigger_spec first rest) as [Hfirst|Hdef]; trivial.
      now elim Hdef.
    + apply (JsFacts.fold_missing_first (fun f => acres (properties f))
               bigger bigger_spec).
  - intros userLocation environmentalData first rest E.
    unfold MapJs.findBestEnvironmentalParcel. rewrite E. simpl.
    exists (fold_left MapJs.better rest first). split; [reflexivity|]. split.
    + intros Hnone.
      destruct (JsFacts.fold_first_or_defined (fun f => percentile (properties f))
                  MapJs.better better_spec first rest) as [Hfirst|Hdef]; trivial.
      now elim Hdef.
    + apply (JsFacts.fold_missing_first (fun f => percentile (properties f))
               MapJs.better better_spec).
Qed.

End DestinationSelector.

Example selector_runs :
  findBiggestParkOrTrail (Fixture.fc [Fixture.park32; Fixture.park78])
    (Fixture.fc [Fixture.trailA1]) Fixture.parcelB = Js.Normal (Some Fixture.park78)
  /\ findBiggestParkOrTrail (Fixture.fc [Fixture.park78; Fixture.park32; Fixture.park78b])
    (Fixture.fc []) Fixture.parcelB = Js.Normal (Some Fixture.park78)
  /\ findBiggestParkOrTrail (Fixture.fc [Fixture.park5])
    (Fixture.fc [Fixture.trailLA; Fixture.trailA1; Fixture.trailA2]) Fixture.parcelA
    = Js.Normal (Some Fixture.trailA1)
  /\ findBiggestParkOrTrail (Fixture.fc [Fixture.park5])
    (Fixture.fc [Fixture.trailLA]) Fixture.parcelA = Js.Normal None
  /\ findBiggestParkOrTrail (Fixture.fc [Fixture.park5]) None Fixture.parcelB
    = Js.Normal None.
Proof. repeat split; vm_compute; reflexivity. Qed.

Lemma findBiggestParkOrTrail_largest_witness :
  inParcel Fixture.parcelB [Fixture.park32; Fixture.park78; Fixture.park78b] <> [] /\
  Forall surveyed
    (inParcel Fixture.parcelB [Fixture.park32; Fixture.park78; Fixture.park78b]) /\
  exists biggest,
    findBiggestParkOrTrail
      (Some (mkFeatureCollection [Fixture.park32; Fixture.park78; Fixture.park78b]))
      (Some (mkFeatureCollection [Fixture.trailA1])) Fixture.parcelB
      = Js.Normal (Some biggest) /\
    In biggest
       (inParcel Fixture.parcelB [Fixture.park32; Fixture.park78; Fixture.park78b]) /\
    (forall park,
        In park (inParcel Fixture.parcelB
                   [Fixture.park32; Fixture.park78; Fixture.park78b]) ->
        Js.Le (acres (properties park)) (acres (properties biggest))) /\
    find (fun park => Js.same (acres (properties park)) (acres (properties biggest)))
         (inParcel Fixture.parcelB [Fixture.park32; Fixture.park78; Fixture.park78b])
      = Some biggest.
Proof.
  assert (Hne : inParcel Fixture.parcelB
                  [Fixture.park32; Fixture.park78; Fixture.park78b] <> [])
    by (vm_compute; discriminate).
  assert (Hsurveyed : Forall surveyed
            (inParcel Fixture.parcelB [Fixture.park32; Fixture.park78; Fixture.park78b]))
    by (vm_compute; repeat constructor; discriminate).
  split; [exact Hne|]. split; [exact Hsurveyed|].
  exact (findBiggestParkOrTrail_largest
           (mkFeatureCollection [Fixture.park32; Fixture.park78; Fixture.park78b])
           (mkFeatureCollection [Fixture.trailA1]) Fixture.parcelB Hne Hsurveyed).
Defined.

Lemma findBiggestParkOrTrail_missing_acres_witness :
  inParcel Fixture.parcelB [Fixture.parkNoAcres; Fixture.park5]
    = [Fixture.parkNoAcres; Fixture.park5] /\
  withinRadius Fixture.userLocation 2 [Scenario.parcelUnscored; Fixture.parcelA]
    = [Scenario.parcelUnscored; Fixture.parcelA] /\
  (exists park,
    findBiggestParkOrTrail
      (Some (mkFeatureCollection [Fixture.parkNoAcres; Fixture.park5]))
      (Some (mkFeatureCollection [])) Fixture.parcelB = Js.Normal (Some park) /\
    (acres (properties park) = None -> park = Fixture.parkNoAcres) /\
    (acres (properties Fixture.parkNoAcres) = None -> park = Fixture.parkNoAcres)) /\
  (exists best,
    MapJs.findBestEnvironmentalParcel (Some Fixture.userLocation)
      (Some (mkFeatureCollection [Scenario.parcelUnscored; Fixture.parcelA]))
      = Js.Normal (Some best) /\
    (percentile (properties best) = None -> best = Scenario.parcelUnscored) /\
    (percentile (properties Scenario.parcelUnscored) = None ->
     best = Scenario.parcelUnscored)).
Proof.
  assert (E : inParcel Fixture.parcelB [Fixture.parkNoAcres; Fixture.park5]
              = [Fixture.parkNoAcres; Fixture.park5]) by (vm_compute; reflexivity).
  assert (E' : withinRadius Fixture.userLocation 2
                 [Scenario.parcelUnscored; Fixture.parcelA]
               = [Scenario.parcelUnscored; Fixture.parcelA])
    by (vm_compute; reflexivity).
  split; [exact E|]. split; [exact E'|]. split.
  - exact (proj1 findBiggestParkOrTrail_missing_acres
             (mkFeatureCollection [Fixture.parkNoAcres; Fixture.park5])
             (mkFeatureCollection []) Fixture.parcelB _ _ E).
  - exact (proj2 findBiggestParkOrTrail_missing_acres Fixture.userLocation
             (mkFeatureCollection [Scenario.parcelUnscored; Fixture.parcelA]) _ _ E').
Defined.

(** A park with no [acres] listed first is chosen over the 5-acre park
    inside the same parcel, and the plan builder then raises while it
    writes the prompt; so does [src/src/Map.js] when the destination is a
    trail.  A parcel with no [percentile] listed first is chosen by
    [src/src/Map.js] over the parcel in range that scores 0.9. *)
Lemma missing_acres_wins_and_raises :
  findBiggestParkOrTrail (Fixture.fc [Fixture.parkNoAcres; Fixture.park5])
    (Fixture.fc []) Fixture.parcelB = Js.Normal (Some Fixture.parkNoAcres)
  /\ acres (properties Fixture.parkNoAcres) = None
  /\ acres (properties Fixture.park5) = Some 5
  /\ In Fixture.park5 (inParcel Fixture.parcelB [Fixture.parkNoAcres; Fixture.park5])
  /\ MapV2.buildHealthyPlan Fixture.servicesUp
       (Fixture.stateV2 [Fixture.parcelB] [Fixture.parkNoAcres; Fixture.park5] [])
     = Js.Throw (Js.TypeError "Cannot read properties of undefined (reading 'toFixed')")
  /\ MapJs.buildHealthyPlan Fixture.servicesUp
       (Fixture.stateJs [Fixture.parcelA] [Fixture.park5] [Fixture.trailA1])
     = Js.Throw (Js.TypeError "Cannot read properties of undefined (reading 'toFixed')")
  /\ MapJs.findBestEnvironmentalParcel (Some Fixture.userLocation)
       (Fixture.fc [Scenario.parcelUnscored; Fixture.parcelA])
     = Js.Normal (Some Scenario.parcelUnscored)
  /\ percentile (properties Scenario.parcelUnscored) = None
  /\ percentile (properties Fixture.parcelA) = Some (9 # 10)
  /\ In Fixture.parcelA
        (withinRadius Fixture.userLocation 2 [Scenario.parcelUnscored; Fixture.parcelA]).
Proof.
  split; [vm_compute; reflexivity|].
  split; [reflexivity|]. split; [reflexivity|].
  split; [vm_compute; right; left; reflexivity|].
  split; [vm_compute; reflexivity|].
  split; [vm_compute; reflexivity|].
  split; [vm_compute; reflexivity|].
  split; [reflexivity|]. split; [reflexivity|].
  vm_compute. right; left; reflexivity.
Qed.

(** * The plan builder *)

Section PlanBuilder.
Context `{Turf}.

Lemma generateParkGuide_service_down (svc : Services) (park : Feature) (prompt : Prompt) :
  parkPrompt park = Js.Normal prompt ->
  chatCompletions svc prompt = None ->
  generateParkGuide svc park = Js.Normal guideUnavailable.
Proof.
  intros Hprompt Hdown. unfold generateParkGuide. rewrite Hprompt. simpl.
  now rewrite Hdown.
Qed.

(** The plan the builder stores once the guide is there. *)
Lemma buildHealthyPlan_stores (svc : Services) (s : MapV2.State)
    (bestParcel bestLocation : Feature) (text : string) :
  MapV2.findBestEnvironmentalParcel
    (MapV2.userLocation s) (MapV2.environmentalData s) (MapV2.parks s) = Some bestParcel ->
  findBiggestParkOrTrail (MapV2.parks s) (MapV2.bikePaths s) bestParcel
    = Js.Normal (Some bestLocation) ->
  generateParkGuide svc bestLocation = Js.Normal text ->
  exists s',
    MapV2.buildHealthyPlan svc s = Js.Normal s' /\
    MapV2.healthyPlan s' =
      Some (mkHealthyPlan (if isPolygon (geometry bestLocation) then Park else Trail)
                          bestLocation (percentile (properties bestParcel)) text).
Proof.
  intros Hparcel Hlocation Hguide. unfold MapV2.buildHealthyPlan.
  rewrite Hparcel, Hlocation. simpl. rewrite Hguide. simpl.
  eexists; split; [reflexivity|].
  destruct (MapV2.parks s), (Js.truthy (common_name (properties bestLocation))),
    (MapV2.map s), (MapV2.userLocation s), (MapV2.bikePathsContent s); reflexivity.
Qed.

(** C8. When the narrative service call fails, the plan builder still
    returns, and the plan it stores carries the placeholder text as its
    guide. *)
Theorem buildHealthyPlan_guide_fallback (svc : Services) (s : MapV2.State)
    (bestParcel bestLocation : Feature) (prompt : Prompt) :
  MapV2.findBestEnvironmentalParcel
    (MapV2.userLocation s) (MapV2.environmentalData s) (MapV2.parks s) = Some bestParcel ->
  findBiggestParkOrTrail (MapV2.parks s) (MapV2.bikePaths s) bestParcel
    = Js.Normal (Some bestLocation) ->
  parkPrompt bestLocation = Js.Normal prompt ->
  chatCompletions svc prompt = None ->
  exists s' plan,
    MapV2.buildHealthyPlan svc s = Js.Normal s' /\
    MapV2.healthyPlan s' = Some plan /\
    guide plan = guideUnavailable /\
    location plan = bestLocation /\
    environmentalRating plan = percentile (properties bestParcel).
Proof.
  intros Hparcel Hlocation Hprompt Hdown.
  destruct (buildHealthyPlan_stores svc s bestParcel bestLocation guideUnavailable
              Hparcel Hlocation (generateParkGuide_service_down _ _ _ Hprompt Hdown))
    as (s' & Hrun & Hplan).
  exists s'. eexists. split; [exact Hrun|]. split; [exact Hplan|]. repeat split.
Qed.

End PlanBuilder.

Lemma buildHealthyPlan_guide_fallback_witness :
  MapV2.findBestEnvironmentalParcel (Some Fixture.userLocation)
    (Fixture.fc [Fixture.parcelA; Fixture.parcelB]) (Fixture.fc [Fixture.park5])
    = Some Fixture.parcelB /\
  findBiggestParkOrTrail (Fixture.fc [Fixture.park5]) (Fixture.fc [Fixture.trailA1])
    Fixture.parcelB = Js.Normal (Some Fixture.park5) /\
  parkPrompt Fixture.park5 = Js.Normal (mkPrompt (Some "Five Acre Park"%string) 5) /\
  exists s' plan,
    MapV2.buildHealthyPlan Fixture.servicesDown
      (Fixture.stateV2 [Fixture.parcelA; Fixture.parcelB] [Fixture.park5] [Fixture.trailA1])
      = Js.Normal s' /\
    MapV2.healthyPlan s' = Some plan /\
    guide plan = guideUnavailable /\
    location plan = Fixture.park5 /\
    environmentalRating plan = percentile (properties Fixture.parcelB).
Proof.
  assert (Hparcel : MapV2.findBestEnvironmentalParcel (Some Fixture.userLocation)
            (Fixture.fc [Fixture.parcelA; Fixture.parcelB]) (Fixture.fc [Fixture.park5])
            = Some Fixture.parcelB) by (vm_compute; reflexivity).
  assert (Hlocation : findBiggestParkOrTrail (Fixture.fc [Fixture.park5])
            (Fixture.fc [Fixture.trailA1]) Fixture.parcelB
            = Js.Normal (Some Fixture.park5)) by (vm_compute; reflexivity).
  assert (Hprompt : parkPrompt Fixture.park5
            = Js.Normal (mkPrompt (Some "Five Acre Park"%string) 5)) by reflexivity.
  split; [exact Hparcel|]. split; [exact Hlocation|]. split; [exact Hprompt|].
  exact (buildHealthyPlan_guide_fallback Fixture.servicesDown
           (Fixture.stateV2 [Fixture.parcelA; Fixture.parcelB] [Fixture.park5]
                            [Fixture.trailA1])
           Fixture.parcelB Fixture.park5 _ Hparcel Hlocation Hprompt eq_refl).
Defined.

Section ParkPlans.
Context `{Turf}.

(** The parks as [fetchParks] builds them are polygons, and tagging the
    selected park keeps them so. *)
Lemma fetchParks_polygons (response : Js.Completion (list EsriFeature))
    (previous : option FeatureCollection) :
  allPolygons previous -> allPolygons (fetchParks response previous).
Proof.
  intros Hprev. destruct response as [data|e]; simpl; [|exact Hprev].
  intros fc [= <-]. simpl. apply Forall_forall. intros f Hf.
  apply filter_In in Hf as [Hf _]. apply in_map_iff in Hf as (raw & <- & _).
  reflexivity.
Qed.

Lemma findBestEnvironmentalParcel_has_park
    (userLocation : option Position) (environmentalData parks : option FeatureCollection)
    (bestParcel : Feature) :
  MapV2.findBestEnvironmentalParcel userLocation environmentalData parks
    = Some bestParcel ->
  exists fc, parks = Some fc /\ hasPark fc bestParcel = true.
Proof.
  destruct userLocation as [loc|], environmentalData as [env|], parks as [fc|];
    try discriminate.
  rewrite findBestEnvironmentalParcel_find. intros Hfind.
  exists fc. split; [reflexivity|]. now apply find_some in Hfind.
Qed.

(** C10. In the later revision, a run of the plan builder either leaves
    the state as it was or stores a plan of type Park: the destination is
    one of the parks, a polygon with its centre inside the parcel the
    ranker returned, never a trail. *)
Theorem buildHealthyPlan_always_park (svc : Services) (s s' : MapV2.State) :
  allPolygons (MapV2.parks s) ->
  MapV2.buildHealthyPlan svc s = Js.Normal s' ->
  s' = s \/
  exists plan parks bestParcel,
    MapV2.healthyPlan s' = Some plan /\
    type plan = Park /\
    MapV2.parks s = Some parks /\
    MapV2.findBestEnvironmentalParcel
      (MapV2.userLocation s) (MapV2.environmentalData s) (MapV2.parks s)
      = Some bestParcel /\
    In (location plan) (features parks) /\
    inside bestParcel (location plan) = true /\
    isPolygon (geometry (location plan)) = true.
Proof.
  intros Hpoly Hrun.
  destruct (MapV2.findBestEnvironmentalParcel
              (MapV2.userLocation s) (MapV2.environmentalData s) (MapV2.parks s))
    as [bestParcel|] eqn:Hparcel.
  2:{ unfold MapV2.buildHealthyPlan in Hrun. rewrite Hparcel in Hrun.
      injection Hrun as <-. now left. }
  destruct (findBestEnvironmentalParcel_has_park _ _ _ _ Hparcel) as (parks & Eparks & Hpark).
  destruct (MapV2.bikePaths s) as [bikePaths|] eqn:Ebikes.
  2:{ unfold MapV2.buildHealthyPlan in Hrun.
      rewrite Hparcel, Eparks, Ebikes in Hrun. simpl in Hrun.
      injection Hrun as <-. now left. }
  assert (Hlocation : exists bestLocation,
             findBiggestParkOrTrail (MapV2.parks s) (MapV2.bikePaths s) bestParcel
               = Js.Normal (Some bestLocation) /\
             In bestLocation (inParcel bestParcel (features parks))).
  { rewrite Eparks, Ebikes, findBiggestParkOrTrail_cases.
    apply length_pos_cons in Hpark.
    destruct (inParcel bestParcel (features parks)) as [|first rest]; [congruence|].
    eexists; split; [reflexivity | apply fold_bigger_In]. }
  destruct Hlocation as (bestLocation & Hlocation & Hin).
  apply filter_In in Hin as [Hin Hinside].
  assert (Hpolygon : isPolygon (geometry bestLocation) = true).
  { specialize (Hpoly parks Eparks). rewrite Forall_forall in Hpoly. now apply Hpoly. }
  destruct (generateParkGuide svc bestLocation) as [text|e] eqn:Hguide.
  2:{ unfold MapV2.buildHealthyPlan in Hrun.
      rewrite Hparcel, Hlocation in Hrun. simpl in Hrun. rewrite Hguide in Hrun.
      discriminate. }
  destruct (buildHealthyPlan_stores svc s bestParcel bestLocation text
              Hparcel Hlocation Hguide) as (s'' & Hrun' & Hplan).
  rewrite Hrun in Hrun'. injection Hrun' as <-.
  right. eexists. exists parks, bestParcel.
  split; [exact Hplan|]. simpl. rewrite Hpolygon. repeat split; trivial.
Qed.

End ParkPlans.

Lemma buildHealthyPlan_always_park_witness :
  allPolygons (MapV2.parks
     (Fixture.stateV2 [Fixture.parcelA; Fixture.parcelB] [Fixture.park5; Fixture.park78]
                      [Fixture.trailA1])) /\
  exists s',
    MapV2.buildHealthyPlan Fixture.servicesUp
      (Fixture.stateV2 [Fixture.parcelA; Fixture.parcelB] [Fixture.park5; Fixture.park78]
                       [Fixture.trailA1]) = Js.Normal s' /\
    (s' = Fixture.stateV2 [Fixture.parcelA; Fixture.parcelB]
            [Fixture.park5; Fixture.park78] [Fixture.trailA1] \/
     exists plan parks bestParcel,
       MapV2.healthyPlan s' = Some plan /\
       type plan = Park /\
       Fixture.fc [Fixture.park5; Fixture.park78] = Some parks /\
       MapV2.findBestEnvironmentalParcel (Some Fixture.userLocation)
         (Fixture.fc [Fixture.parcelA; Fixture.parcelB])
         (Fixture.fc [Fixture.park5; Fixture.park78]) = Some bestParcel /\
       In (location plan) (features parks) /\
       inside bestParcel (location plan) = true /\
       isPolygon (geometry (location plan)) = true).
Proof.
  assert (Hpoly : allPolygons (MapV2.parks
     (Fixture.stateV2 [Fixture.parcelA; Fixture.parcelB] [Fixture.park5; Fixture.park78]
                      [Fixture.trailA1]))).
  { intros fc [= <-]. repeat constructor. }
  split; [exact Hpoly|].
  eexists. split; [vm_compute; reflexivity|].
  apply (buildHealthyPlan_always_park Fixture.servicesUp
           (Fixture.stateV2 [Fixture.parcelA; Fixture.parcelB]
              [Fixture.park5; Fixture.park78] [Fixture.trailA1]) _ Hpoly).
  vm_compute. reflexivity.
Defined.

Example plan_runs :
  match MapV2.buildHealthyPlan Fixture.servicesUp
          (Fixture.stateV2 [Fixture.parcelA; Fixture.parcelB]
                           [Fixture.park5; Fixture.park78] [Fixture.trailA1]) with
  | Js.Normal s' =>
      MapV2.healthyPlan s'
        = Some (mkHealthyPlan Park Fixture.park78 (Some (7 # 10)) "### A park")
      /\ MapV2.selectedParkId s' = Some "Large Park"%string
  | Js.Throw _ => False
  end.
Proof. vm_compute. split; reflexivity. Qed.

(** * Further properties of the plan builder *)

Section PlanBuilderOutcomes.
Context `{Turf}.

Lemma MapV2_state_eq (s t : MapV2.State) :
  MapV2.environmentalData s = MapV2.environmentalData t ->
  MapV2.bikePaths s = MapV2.bikePaths t ->
  MapV2.parks s = MapV2.parks t ->
  MapV2.userLocation s = MapV2.userLocation t ->
  MapV2.healthyPlan s = MapV2.healthyPlan t ->
  MapV2.bikePathsContent s = MapV2.bikePathsContent t ->
  MapV2.selectedParkId s = MapV2.selectedParkId t ->
  MapV2.route s = MapV2.route t ->
  MapV2.map s = MapV2.map t ->
  MapV2.flownTo s = MapV2.flownTo t ->
  s = t.
Proof. destruct s, t; simpl; intros; congruence. Qed.

(** The run of the later revision, by cases on what its three steps give. *)
Lemma MapV2_run_cases (svc : Services) (s : MapV2.State) :
  match MapV2.findBestEnvironmentalParcel
          (MapV2.userLocation s) (MapV2.environmentalData s) (MapV2.parks s) with
  | None => MapV2.buildHealthyPlan svc s = Js.Normal s
  | Some bestParcel =>
      match findBiggestParkOrTrail (MapV2.parks s) (MapV2.bikePaths s) bestParcel with
      | Js.Throw e => MapV2.buildHealthyPlan svc s = Js.Throw e
      | Js.Normal None => MapV2.buildHealthyPlan svc s = Js.Normal s
      | Js.Normal (Some bestLocation) =>
          match generateParkGuide svc bestLocation with
          | Js.Throw e => MapV2.buildHealthyPlan svc s = Js.Throw e
          | Js.Normal text =>
              exists s', MapV2.buildHealthyPlan svc s = Js.Normal s' /\
                         planStored svc s bestParcel bestLocation text s'
          end
      end
  end.
Proof.
  unfold MapV2.buildHealthyPlan.
  destruct (MapV2.findBestEnvironmentalParcel _ _ _) as [bestParcel|]; [|reflexivity].
  destruct (findBiggestParkOrTrail _ _ _) as [[bestLocation|]|e]; simpl; try reflexivity.
  destruct (generateParkGuide svc bestLocation) as [text|e]; simpl; [|reflexivity].
  unfold planStored.
  destruct s as [env bikes [parks|] [loc|] plan [content|] sel route [|] flown];
    cbn [MapV2.parks MapV2.userLocation MapV2.bikePathsContent MapV2.map
         MapV2.route MapV2.selectedParkId MapV2.flownTo MapV2.healthyPlan
         MapV2.environmentalData MapV2.bikePaths];
    destruct (Js.truthy (common_name (properties bestLocation)));
    eexists; (split; [reflexivity|]); repeat split; reflexivity.
Qed.

(** The guide is written exactly when the destination carries an area. *)
Lemma generateParkGuide_raises_iff (svc : Services) (park : Feature) :
  (exists e, generateParkGuide svc park = Js.Throw e) <-> acres (properties park) = None.
Proof.
  unfold generateParkGuide, parkPrompt.
  destruct (acres (properties park)) as [a|]; simpl.
  - split; [|discriminate]. intros [e He].
    destruct (chatCompletions svc _); discriminate.
  - split; [reflexivity|]. intros _. eexists; reflexivity.
Qed.

(** The ranker of the later revision returns a parcel only with the user
    located and the parcels and parks loaded. *)
Lemma MapV2_ranker_loaded (userLocation : option Position)
    (environmentalData parks : option FeatureCollection) (bestParcel : Feature) :
  MapV2.findBestEnvironmentalParcel userLocation environmentalData parks = Some bestParcel ->
  exists loc env fc,
    userLocation = Some loc /\ environmentalData = Some env /\ parks = Some fc /\
    In bestParcel (withinRadius loc 2 (features env)) /\ hasPark fc bestParcel = true.
Proof.
  destruct userLocation as [loc|], environmentalData as [env|], parks as [fc|];
    try discriminate.
  rewrite findBestEnvironmentalParcel_find. intros Hfind.
  apply find_some in Hfind as [Hin Hpark]. apply JsFacts.sort_In in Hin.
  exists loc, env, fc. repeat split; trivial.
Qed.

(** X1. In the later revision, with everything loaded and every in-range
    parcel scored, a park with no [acres] that is the first park, in input
    order, inside the parcel the ranker returns makes the plan builder
    raise, whatever the other parks inside the parcel are. *)
Theorem MapV2_missing_acres_raises (svc : Services) (s : MapV2.State)
    (loc : Position) (env parks bikePaths : FeatureCollection)
    (bestParcel first : Feature) (rest : list Feature) :
  MapV2.userLocation s = Some loc ->
  MapV2.environmentalData s = Some env ->
  MapV2.parks s = Some parks ->
  MapV2.bikePaths s = Some bikePaths ->
  Forall scored (withinRadius loc 2 (features env)) ->
  MapV2.findBestEnvironmentalParcel (Some loc) (Some env) (Some parks) = Some bestParcel ->
  inParcel bestParcel (features parks) = first :: rest ->
  acres (properties first) = None ->
  exists e, MapV2.buildHealthyPlan svc s = Js.Throw e.
Proof.
  intros Eloc Eenv Eparks Ebikes _ Hparcel Ein Hnone.
  pose proof (MapV2_run_cases svc s) as Hrun.
  rewrite Eloc, Eenv, Eparks, Hparcel, Ebikes, findBiggestParkOrTrail_cases, Ein in Hrun.
  rewrite (JsFacts.fold_missing_first (fun f => acres (properties f))
             bigger bigger_spec first rest Hnone) in Hrun.
  destruct (proj2 (generateParkGuide_raises_iff svc first) Hnone) as [e He].
  rewrite He in Hrun. eauto.
Qed.

(** The run of [src/src/Map.js], by cases on what its three steps give. *)
Lemma MapJs_run_cases (svc : Services) (s : MapJs.State) :
  match MapJs.findBestEnvironmentalParcel
          (MapJs.userLocation s) (MapJs.environmentalData s) with
  | Js.Throw e => MapJs.buildHealthyPlan svc s = Js.Throw e
  | Js.Normal None => MapJs.buildHealthyPlan svc s = Js.Normal s
  | Js.Normal (Some bestParcel) =>
      match findBiggestParkOrTrail (MapJs.parks s) (MapJs.bikePaths s) bestParcel with
      | Js.Throw e => MapJs.buildHealthyPlan svc s = Js.Throw e
      | Js.Normal None => MapJs.buildHealthyPlan svc s = Js.Normal s
      | Js.Normal (Some bestLocation) =>
          match generateParkGuide svc bestLocation with
          | Js.Throw e => MapJs.buildHealthyPlan svc s = Js.Throw e
          | Js.Normal text =>
              exists s', MapJs.buildHealthyPlan svc s = Js.Normal s' /\
                MapJs.healthyPlan s' =
                  Some (mkHealthyPlan
                          (if isPolygon (geometry bestLocation) then Park else Trail)
                          bestLocation (percentile (properties bestParcel)) text) /\
                MapJs.flownTo s' =
                  (if MapJs.map s
                   then Some (mkFlyTo (center (geometry bestLocation)) 15 2000)
                   else MapJs.flownTo s) /\
                MapJs.environmentalData s' = MapJs.environmentalData s /\
                MapJs.bikePaths s' = MapJs.bikePaths s /\
                MapJs.parks s' = MapJs.parks s /\
                MapJs.userLocation s' = MapJs.userLocation s /\
                MapJs.map s' = MapJs.map s
          end
      end
  end.
Proof.
  unfold MapJs.buildHealthyPlan.
  destruct (MapJs.findBestEnvironmentalParcel _ _) as [[bestParcel|]|e]; simpl;
    try reflexivity.
  destruct (findBiggestParkOrTrail _ _ _) as [[bestLocation|]|e]; simpl; try reflexivity.
  destruct (generateParkGuide svc bestLocation) as [text|e]; simpl; [|reflexivity].
  destruct s as [env bikes parks loc plan [|] flown];
    eexists; (split; [reflexivity|]); repeat split; reflexivity.
Qed.

(** X2. The plan builder of [src/src/Map.js] raises when the user is
    located and the parcels are loaded but none is in range, and it raises
    when the destination picked for the best parcel has no [acres]. *)
Theorem MapJs_buildHealthyPlan_raises (svc : Services) (s : MapJs.State) :
  (forall loc env,
      MapJs.userLocation s = Some loc -> MapJs.environmentalData s = Some env ->
      withinRadius loc 2 (features env) = [] ->
      exists e, MapJs.buildHealthyPlan svc s = Js.Throw e) /\
  (forall bestParcel bestLocation,
      MapJs.findBestEnvironmentalParcel (MapJs.userLocation s) (MapJs.environmentalData s)
        = Js.Normal (Some bestParcel) ->
      findBiggestParkOrTrail (MapJs.parks s) (MapJs.bikePaths s) bestParcel
        = Js.Normal (Some bestLocation) ->
      acres (properties bestLocation) = None ->
      exists e, MapJs.buildHealthyPlan svc s = Js.Throw e).
Proof.
  pose proof (MapJs_run_cases svc s) as Hrun. split.
  - intros loc env Hloc Henv Hnone.
    eexists. now apply (MapJs_nothing_in_range svc s loc env).
  - intros bestParcel bestLocation Hparcel Hlocation Hacres.
    rewrite Hparcel, Hlocation in Hrun.
    destruct (proj2 (generateParkGuide_raises_iff svc bestLocation) Hacres) as [e He].
    rewrite He in Hrun. eauto.
Qed.

End PlanBuilderOutcomes.

(** * The two rankers compared, and the order of the parcels *)

Section Rankers.
Context `{Turf}.

Lemma Le_antisym_same (a b : Js.Number) :
  Js.Le a b -> Js.Le b a -> Js.same a b = true.
Proof.
  destruct a as [x|], b as [y|]; simpl; try tauto.
  intros Hxy Hyx. apply Qeq_bool_iff. now apply Qle_antisym.
Qed.

Lemma same_trans (a b c : Js.Number) :
  Js.same a b = true -> Js.same b c = true -> Js.same a c = true.
Proof.
  destruct a, b, c; simpl; try discriminate. apply Qeq_bool_trans.
Qed.

Lemma same_sym (a b : Js.Number) : Js.same a b = true -> Js.same b a = true.
Proof.
  destruct a, b; simpl; try discriminate. apply Qeq_bool_sym.
Qed.

(** What the later revision's ranker returns is in range, has a park, and
    no parcel with a park has a greater score. *)
Lemma MapV2_ranker_greatest (loc : Position) (env parks : FeatureCollection)
    (best : Feature) :
  Forall scored (withinRadius loc 2 (features env)) ->
  MapV2.findBestEnvironmentalParcel (Some loc) (Some env) (Some parks) = Some best ->
  In best (withinRadius loc 2 (features env)) /\ hasPark parks best = true /\
  forall parcel, In parcel (withinRadius loc 2 (features env)) ->
    hasPark parks parcel = true ->
    Js.Le (percentile (properties parcel)) (percentile (properties best)).
Proof.
  intros Hscored Hbest. rewrite findBestEnvironmentalParcel_find in Hbest.
  destruct (find_some _ _ Hbest) as [Hin Hpark]. apply JsFacts.sort_In in Hin.
  repeat split; trivial. now apply first_ranked_is_greatest.
Qed.

(** A parcel in range with a park in it is enough for the ranker to
    return a parcel. *)
Lemma MapV2_ranker_finds (loc : Position) (env parks : FeatureCollection)
    (parcel : Feature) :
  In parcel (withinRadius loc 2 (features env)) -> hasPark parks parcel = true ->
  exists best,
    MapV2.findBestEnvironmentalParcel (Some loc) (Some env) (Some parks) = Some best.
Proof.
  intros Hin Hpark. rewrite findBestEnvironmentalParcel_find.
  destruct (find (hasPark parks) _) as [best|] eqn:Hfind; [eauto|].
  apply JsFacts.sort_In with (comparefn := MapV2.byPercentileDesc) in Hin.
  rewrite (find_none _ _ Hfind _ Hin) in Hpark. discriminate.
Qed.

(** When the parcel that [src/src/Map.js] ranks first has a park in it,
    the later revision ranks the same parcel first. *)
Lemma rankers_agree_on_parcel_with_park
    (loc : Position) (env parks : FeatureCollection) (best : Feature) :
  Forall scored (withinRadius loc 2 (features env)) ->
  MapJs.findBestEnvironmentalParcel (Some loc) (Some env) = Js.Normal (Some best) ->
  hasPark parks best = true ->
  MapV2.findBestEnvironmentalParcel (Some loc) (Some env) (Some parks) = Some best.
Proof.
  intros Hscored HJs Hpark.
  unfold MapJs.findBestEnvironmentalParcel in HJs.
  set (inRange := withinRadius loc 2 (features env)) in *.
  destruct inRange as [|first rest] eqn:E; [discriminate|].
  simpl in HJs. injection HJs as HJs.
  destruct (JsFacts.fold_greatest (fun f => percentile (properties f))
              MapJs.better better_spec first rest Hscored) as (Hin & Hmax & Hfirst).
  rewrite HJs in Hin, Hmax, Hfirst. rewrite <- E in *.
  destruct (MapV2_ranker_finds loc env parks best Hin Hpark) as [q Hq].
  rewrite Hq. f_equal.
  destruct (MapV2_ranker_greatest loc env parks q Hscored Hq) as (Hqin & Hqpark & Hqmax).
  assert (Htied : tiedWith best q = true).
  { apply Le_antisym_same; [now apply Hmax | now apply Hqmax]. }
  rewrite findBestEnvironmentalParcel_find in Hq.
  apply (JsFacts.find_filter _ (tiedWith best)) in Hq; [|exact Htied].
  unfold tiedWith in Hq at 1.
  rewrite (JsFacts.sort_stable (fun f => percentile (properties f))) in Hq.
  rewrite find_filter_swap in Hq.
  apply (JsFacts.find_filter _ (hasPark parks)) in Hfirst; [|exact Hpark].
  fold inRange in Hq. unfold tiedWith in Hfirst. congruence.
Qed.

(** X4. With no two in-range parcels sharing a score, the parcel the
    later revision's ranker returns does not depend on the order in which
    the parcels were fetched. *)
Theorem ranker_independent_of_fetch_order
    (loc : Position) (env env' parks : FeatureCollection) :
  Permutation (features env) (features env') ->
  Forall scored (withinRadius loc 2 (features env)) ->
  distinctScores (withinRadius loc 2 (features env)) ->
  MapV2.findBestEnvironmentalParcel (Some loc) (Some env) (Some parks)
  = MapV2.findBestEnvironmentalParcel (Some loc) (Some env') (Some parks).
Proof.
  intros Hperm Hscored Hdistinct.
  assert (Hsame : forall f, In f (withinRadius loc 2 (features env)) <->
                            In f (withinRadius loc 2 (features env'))).
  { intros f. unfold withinRadius. rewrite !filter_In.
    split; intros [Hin Hb]; split; trivial;
      [apply (Permutation_in _ Hperm) | apply (Permutation_in _ (Permutation_sym Hperm))];
      exact Hin. }
  assert (Hscored' : Forall scored (withinRadius loc 2 (features env'))).
  { rewrite Forall_forall in *. intros f Hf. apply Hscored. now apply Hsame. }
  destruct (MapV2.findBestEnvironmentalParcel (Some loc) (Some env) (Some parks))
    as [p|] eqn:Hp;
  destruct (MapV2.findBestEnvironmentalParcel (Some loc) (Some env') (Some parks))
    as [q|] eqn:Hq; trivial.
  - destruct (MapV2_ranker_greatest loc env parks p Hscored Hp) as (Hpin & Hppark & Hpmax).
    destruct (MapV2_ranker_greatest loc env' parks q Hscored' Hq) as (Hqin & Hqpark & Hqmax).
    f_equal. apply Hdistinct; trivial; [now apply Hsame|].
    apply Le_antisym_same.
    + apply Hpmax; trivial. now apply Hsame.
    + apply Hqmax; trivial. now apply Hsame.
  - destruct (MapV2_ranker_greatest loc env parks p Hscored Hp) as (Hpin & Hppark & _).
    apply Hsame in Hpin.
    destruct (MapV2_ranker_finds loc env' parks p Hpin Hppark) as [q Hq']. congruence.
  - destruct (MapV2_ranker_greatest loc env' parks q Hscored' Hq) as (Hqin & Hqpark & _).
    apply Hsame in Hqin.
    destruct (MapV2_ranker_finds loc env parks q Hqin Hqpark) as [p Hp']. congruence.
Qed.

End Rankers.

(** * What a run of the later revision's plan builder changes *)

Section PlanBuilderEffects.
Context `{Turf}.

Lemma MapV2_run_stores (svc : Services) (s : MapV2.State)
    (bestParcel bestLocation : Feature) (text : string) :
  MapV2.findBestEnvironmentalParcel
    (MapV2.userLocation s) (MapV2.environmentalData s) (MapV2.parks s) = Some bestParcel ->
  findBiggestParkOrTrail (MapV2.parks s) (MapV2.bikePaths s) bestParcel
    = Js.Normal (Some bestLocation) ->
  generateParkGuide svc bestLocation = Js.Normal text ->
  exists s', MapV2.buildHealthyPlan svc s = Js.Normal s' /\
             planStored svc s bestParcel bestLocation text s'.
Proof.
  intros Hparcel Hlocation Hguide. pose proof (MapV2_run_cases svc s) as Hrun.
  now rewrite Hparcel, Hlocation, Hguide in Hrun.
Qed.

(** A run that returns left the state alone or stored a plan. *)
Lemma MapV2_run_inv (svc : Services) (s s' : MapV2.State) :
  MapV2.buildHealthyPlan svc s = Js.Normal s' ->
  s' = s \/
  exists bestParcel bestLocation text,
    MapV2.findBestEnvironmentalParcel
      (MapV2.userLocation s) (MapV2.environmentalData s) (MapV2.parks s)
      = Some bestParcel /\
    findBiggestParkOrTrail (MapV2.parks s) (MapV2.bikePaths s) bestParcel
      = Js.Normal (Some bestLocation) /\
    generateParkGuide svc bestLocation = Js.Normal text /\
    planStored svc s bestParcel bestLocation text s'.
Proof.
  intros Hs'. pose proof (MapV2_run_cases svc s) as Hrun.
  destruct (MapV2.findBestEnvironmentalParcel _ _ _) as [bestParcel|] eqn:Hparcel;
    [|left; congruence].
  destruct (findBiggestParkOrTrail _ _ _) as [[bestLocation|]|e] eqn:Hlocation;
    [|left; congruence|congruence].
  destruct (generateParkGuide svc bestLocation) as [text|e] eqn:Hguide; [|congruence].
  destruct Hrun as (s'' & Hs'' & Hstored). right.
  assert (s'' = s') by congruence. subst s''.
  exists bestParcel, bestLocation, text. auto.
Qed.

Lemma tagSelected_sameButTag (parkId : option string) (park : Feature) :
  sameButTag (MapV2.tagSelected parkId park) park.
Proof. repeat split. Qed.

Lemma tagged_parks_sameButTag (parkId : option string) (l : list Feature) :
  Forall2 sameButTag (List.map (MapV2.tagSelected parkId) l) l.
Proof.
  induction l; simpl; constructor; trivial. apply tagSelected_sameButTag.
Qed.

Lemma sameButTag_refl_list (l : list Feature) : Forall2 sameButTag l l.
Proof. induction l; constructor; trivial. repeat split. Qed.

(** X5. A run of the later revision's plan builder that returns never
    changes the user location, the parcels, the bike paths or the bike
    path content, and the parks it leaves are the parks it found, one for
    one and in the same order, with the same geometry, score, area and
    names: at most their [selected] tag differs. *)
Theorem MapV2_buildHealthyPlan_frame (svc : Services) (s s' : MapV2.State) :
  MapV2.buildHealthyPlan svc s = Js.Normal s' ->
  MapV2.userLocation s' = MapV2.userLocation s /\
  MapV2.environmentalData s' = MapV2.environmentalData s /\
  MapV2.bikePaths s' = MapV2.bikePaths s /\
  MapV2.bikePathsContent s' = MapV2.bikePathsContent s /\
  match MapV2.parks s', MapV2.parks s with
  | Some parks', Some parks => Forall2 sameButTag (features parks') (features parks)
  | None, None => True
  | _, _ => False
  end.
Proof.
  intros Hrun. destruct (MapV2_run_inv svc s s' Hrun)
    as [->|(bestParcel & bestLocation & text & _ & _ & _ & Hstored)].
  - repeat split. destruct (MapV2.parks s); trivial. apply sameButTag_refl_list.
  - destruct Hstored as (_ & _ & _ & Hparks & _ & Henv & Hbikes & Hloc & Hcontent & _).
    repeat split; trivial. rewrite Hparks.
    destruct (MapV2.parks s) as [parks|]; trivial.
    destruct (Js.truthy _); simpl.
    + apply tagged_parks_sameButTag.
    + apply sameButTag_refl_list.
Qed.

Lemma strictEq_true_iff (a b : option string) :
  Js.truthy b = true -> (Js.strictEq a b = true <-> a = b).
Proof.
  destruct a as [x|], b as [y|]; simpl; try discriminate; intros _.
  - rewrite String.eqb_eq. split; congruence.
  - split; discriminate.
Qed.

(** The destination of the later revision is one of the parks inside the
    parcel. *)
Lemma MapV2_destination_is_park (s : MapV2.State) (bestParcel bestLocation : Feature) :
  MapV2.findBestEnvironmentalParcel
    (MapV2.userLocation s) (MapV2.environmentalData s) (MapV2.parks s) = Some bestParcel ->
  findBiggestParkOrTrail (MapV2.parks s) (MapV2.bikePaths s) bestParcel
    = Js.Normal (Some bestLocation) ->
  exists parks, MapV2.parks s = Some parks /\
                In bestLocation (inParcel bestParcel (features parks)).
Proof.
  intros Hparcel Hlocation.
  destruct (MapV2_ranker_loaded _ _ _ _ Hparcel)
    as (loc & env & parks & _ & _ & Eparks & _ & Hpark).
  exists parks. split; [exact Eparks|].
  rewrite Eparks in Hlocation.
  destruct (MapV2.bikePaths s) as [bikePaths|]; [|discriminate].
  rewrite findBiggestParkOrTrail_cases in Hlocation.
  apply length_pos_cons in Hpark.
  destruct (inParcel bestParcel (features parks)) as [|first rest]; [congruence|].
  injection Hlocation as <-. apply fold_bigger_In.
Qed.

(** X6. When the destination has a name, the run records that name as
    the selected park, and tags the parks: a park is tagged selected
    exactly when it carries the destination's name, so the destination is
    tagged, and so is every other park of the same name. *)
Theorem MapV2_selected_park_tagged (svc : Services) (s : MapV2.State)
    (bestParcel bestLocation : Feature) (text : string) :
  MapV2.findBestEnvironmentalParcel
    (MapV2.userLocation s) (MapV2.environmentalData s) (MapV2.parks s) = Some bestParcel ->
  findBiggestParkOrTrail (MapV2.parks s) (MapV2.bikePaths s) bestParcel
    = Js.Normal (Some bestLocation) ->
  generateParkGuide svc bestLocation = Js.Normal text ->
  Js.truthy (common_name (properties bestLocation)) = true ->
  exists s' parks',
    MapV2.buildHealthyPlan svc s = Js.Normal s' /\
    MapV2.selectedParkId s' = common_name (properties bestLocation) /\
    MapV2.parks s' = Some parks' /\
    (forall park, In park (features parks') ->
       (selected (properties park) = Some true <->
        common_name (properties park) = common_name (properties bestLocation))) /\
    exists tagged, In tagged (features parks') /\
                   sameButTag tagged bestLocation /\
                   selected (properties tagged) = Some true.
Proof.
  intros Hparcel Hlocation Hguide Hname.
  destruct (MapV2_run_stores svc s _ _ _ Hparcel Hlocation Hguide) as (s' & Hrun & Hstored).
  destruct (MapV2_destination_is_park s _ _ Hparcel Hlocation) as (parks & Eparks & Hin).
  destruct Hstored as (_ & _ & Hsel & Hparks & _).
  rewrite Eparks, Hname in Hsel, Hparks.
  exists s'. eexists. split; [exact Hrun|]. split; [exact Hsel|]. split; [exact Hparks|].
  simpl. split.
  - intros park Hpark. apply in_map_iff in Hpark as (raw & <- & _). simpl.
    rewrite <- (strictEq_true_iff _ _ Hname).
    split; [intros [= ->]; reflexivity | intros ->; reflexivity].
  - exists (MapV2.tagSelected (common_name (properties bestLocation)) bestLocation).
    split; [|split].
    + apply in_map. now apply filter_In in Hin.
    + apply tagSelected_sameButTag.
    + simpl. f_equal. now apply strictEq_true_iff.
Qed.

(** X7. When the destination has no name (no [common_name], or an empty
    one), the plan is stored all the same, but the selected park and the
    tags of the parks stay as the previous run left them. *)
Theorem MapV2_unnamed_destination_keeps_selection (svc : Services) (s : MapV2.State)
    (bestParcel bestLocation : Feature) (text : string) :
  MapV2.findBestEnvironmentalParcel
    (MapV2.userLocation s) (MapV2.environmentalData s) (MapV2.parks s) = Some bestParcel ->
  findBiggestParkOrTrail (MapV2.parks s) (MapV2.bikePaths s) bestParcel
    = Js.Normal (Some bestLocation) ->
  generateParkGuide svc bestLocation = Js.Normal text ->
  Js.truthy (common_name (properties bestLocation)) = false ->
  exists s' plan,
    MapV2.buildHealthyPlan svc s = Js.Normal s' /\
    MapV2.healthyPlan s' = Some plan /\ location plan = bestLocation /\
    MapV2.selectedParkId s' = MapV2.selectedParkId s /\
    MapV2.parks s' = MapV2.parks s.
Proof.
  intros Hparcel Hlocation Hguide Hname.
  destruct (MapV2_run_stores svc s _ _ _ Hparcel Hlocation Hguide) as (s' & Hrun & Hstored).
  destruct Hstored as (Hplan & _ & Hsel & Hparks & _).
  rewrite Hname in Hsel, Hparks.
  exists s'. eexists. split; [exact Hrun|]. split; [exact Hplan|]. split; [reflexivity|].
  destruct (MapV2.parks s); auto.
Qed.

(** X8. A run that stores a plan asks for the route from the user's
    location to the centre of the destination and stores the answer, a
    failed request clearing the route, provided the bike path content is
    loaded; without it the route of the previous run stays.  With a map,
    the camera flies to the centre of the destination. *)
Theorem MapV2_route_and_camera (svc : Services) (s : MapV2.State)
    (bestParcel bestLocation : Feature) (text : string) :
  MapV2.findBestEnvironmentalParcel
    (MapV2.userLocation s) (MapV2.environmentalData s) (MapV2.parks s) = Some bestParcel ->
  findBiggestParkOrTrail (MapV2.parks s) (MapV2.bikePaths s) bestParcel
    = Js.Normal (Some bestLocation) ->
  generateParkGuide svc bestLocation = Js.Normal text ->
  exists s' loc,
    MapV2.buildHealthyPlan svc s = Js.Normal s' /\
    MapV2.userLocation s = Some loc /\
    MapV2.route s' =
      (if Layers.loaded (MapV2.bikePathsContent s)
       then directions svc loc (center (geometry bestLocation))
       else MapV2.route s) /\
    MapV2.flownTo s' =
      (if MapV2.map s
       then Some (mkFlyTo (center (geometry bestLocation)) 13 2000)
       else MapV2.flownTo s).
Proof.
  intros Hparcel Hlocation Hguide.
  destruct (MapV2_run_stores svc s _ _ _ Hparcel Hlocation Hguide) as (s' & Hrun & Hstored).
  destruct (MapV2_ranker_loaded _ _ _ _ Hparcel) as (loc & _ & _ & Eloc & _).
  destruct Hstored as (_ & Hroute & _ & _ & Hfly & _).
  exists s', loc. repeat split; trivial.
  rewrite Hroute, Eloc. now destruct (MapV2.bikePathsContent s).
Qed.

End PlanBuilderEffects.

(** * Running the plan builder again *)

Section SecondRun.
Context `{Turf}.

Lemma inParcel_tagged (parkId : option string) (parcel : Feature) (l : list Feature) :
  inParcel parcel (List.map (MapV2.tagSelected parkId) l)
  = List.map (MapV2.tagSelected parkId) (inParcel parcel l).
Proof.
  unfold inParcel. induction l as [|park l IH]; simpl; [reflexivity|].
  destruct (booleanPointInPolygon _ _); simpl; now rewrite IH.
Qed.

Lemma ranker_tagged (parkId : option string) (userLocation : option Position)
    (environmentalData : option FeatureCollection) (parks : FeatureCollection) :
  MapV2.findBestEnvironmentalParcel userLocation environmentalData
    (Some (mkFeatureCollection (List.map (MapV2.tagSelected parkId) (features parks))))
  = MapV2.findBestEnvironmentalParcel userLocation environmentalData (Some parks).
Proof.
  unfold MapV2.findBestEnvironmentalParcel.
  destruct userLocation as [loc|], environmentalData as [env|]; try reflexivity.
  induction (Js.sort MapV2.byPercentileDesc (withinRadius loc 2 (features env)))
    as [|parcel rest IH]; simpl; [reflexivity|].
  now rewrite inParcel_tagged, length_map, IH.
Qed.

Lemma fold_bigger_tagged (parkId : option string) (first : Feature) (rest : list Feature) :
  fold_left bigger (List.map (MapV2.tagSelected parkId) rest)
            (MapV2.tagSelected parkId first)
  = MapV2.tagSelected parkId (fold_left bigger rest first).
Proof.
  revert first. induction rest as [|park rest IH]; intros first; simpl; [reflexivity|].
  rewrite <- IH. f_equal. unfold bigger. simpl. now destruct (Js.gt _ _).
Qed.

Lemma selector_tagged (parkId : option string) (parks bikePaths : FeatureCollection)
    (parcel bestLocation : Feature) :
  In bestLocation (inParcel parcel (features parks)) ->
  findBiggestParkOrTrail (Some parks) (Some bikePaths) parcel
    = Js.Normal (Some bestLocation) ->
  findBiggestParkOrTrail
    (Some (mkFeatureCollection (List.map (MapV2.tagSelected parkId) (features parks))))
    (Some bikePaths) parcel
  = Js.Normal (Some (MapV2.tagSelected parkId bestLocation)).
Proof.
  intros Hin. rewrite !findBiggestParkOrTrail_cases. simpl features.
  rewrite inParcel_tagged.
  destruct (inParcel parcel (features parks)) as [|first rest]; [destruct Hin|].
  simpl. intros [= <-]. now rewrite fold_bigger_tagged.
Qed.

Lemma guide_tagged (svc : Services) (parkId : option string) (park : Feature) :
  generateParkGuide svc (MapV2.tagSelected parkId park) = generateParkGuide svc park.
Proof. reflexivity. Qed.

Lemma tagged_twice (parkId : option string) (l : list Feature) :
  List.map (MapV2.tagSelected parkId) (List.map (MapV2.tagSelected parkId) l)
  = List.map (MapV2.tagSelected parkId) l.
Proof. rewrite map_map. now apply map_ext. Qed.

(** Storing the same plan on top of itself changes nothing. *)
Lemma planStored_again (svc : Services) (a b c : MapV2.State)
    (bestParcel bestLocation : Feature) (text : string) :
  planStored svc a bestParcel bestLocation text b ->
  planStored svc b bestParcel bestLocation text c ->
  c = b.
Proof.
  intros (Hplan & Hroute & Hsel & Hparks & Hfly & Henv & Hbikes & Hloc & Hcontent & Hmap)
         (Hplan' & Hroute' & Hsel' & Hparks' & Hfly' & Henv' & Hbikes' & Hloc' & Hcontent'
          & Hmap').
  apply MapV2_state_eq; try congruence.
  - rewrite Hparks'. rewrite Hparks.
    destruct (MapV2.parks a) as [parks|]; [|reflexivity].
    destruct (Js.truthy _); [|reflexivity].
    simpl. now rewrite tagged_twice.
  - rewrite Hsel'. rewrite Hparks, Hsel.
    destruct (MapV2.parks a) as [parks|]; [|reflexivity].
    now destruct (Js.truthy _).
  - rewrite Hroute', Hloc, Hcontent, Hroute.
    now destruct (MapV2.userLocation a), (MapV2.bikePathsContent a).
  - rewrite Hfly', Hmap, Hfly. now destruct (MapV2.map a).
Qed.

(** X9. With services that answer the same request the same way,
    running the later revision's plan builder again on the state it
    returned does not raise, and the state the second run returns is
    stable: every further run returns it unchanged.  The second run keeps
    the parks, the selected park, the route and the camera of the first. *)
Theorem MapV2_second_run_is_stable (svc : Services) (s s' : MapV2.State) :
  MapV2.buildHealthyPlan svc s = Js.Normal s' ->
  exists s'',
    MapV2.buildHealthyPlan svc s' = Js.Normal s'' /\
    MapV2.buildHealthyPlan svc s'' = Js.Normal s'' /\
    MapV2.parks s'' = MapV2.parks s' /\
    MapV2.selectedParkId s'' = MapV2.selectedParkId s' /\
    MapV2.route s'' = MapV2.route s' /\
    MapV2.flownTo s'' = MapV2.flownTo s'.
Proof.
  intros Hrun. destruct (MapV2_run_inv svc s s' Hrun)
    as [->|(bestParcel & bestLocation & text & Hparcel & Hlocation & Hguide & Hstored)].
  { exists s. repeat split; trivial. }
  destruct (MapV2_destination_is_park s _ _ Hparcel Hlocation) as (parks & Eparks & Hin).
  pose proof Hstored
    as (Hplan & Hroute & Hsel & Hparks & Hfly & Henv & Hbikes & Hloc & Hcontent & Hmap).
  rewrite Eparks in Hparks, Hsel, Hparcel, Hlocation.
  destruct (MapV2.bikePaths s) as [bikePaths|] eqn:Ebikes; [|discriminate].
  set (parkId := common_name (properties bestLocation)) in *.
  set (again := if Js.truthy parkId
                then MapV2.tagSelected parkId bestLocation else bestLocation).
  assert (Hagain : sameButTag again bestLocation).
  { unfold again. destruct (Js.truthy parkId); repeat split. }
  assert (Hparcel' : MapV2.findBestEnvironmentalParcel
            (MapV2.userLocation s') (MapV2.environmentalData s') (MapV2.parks s')
            = Some bestParcel).
  { rewrite Hloc, Henv, Hparks.
    destruct (Js.truthy parkId); [rewrite ranker_tagged|]; exact Hparcel. }
  assert (Hlocation' : findBiggestParkOrTrail (MapV2.parks s') (MapV2.bikePaths s')
            bestParcel = Js.Normal (Some again)).
  { rewrite Hbikes, Hparks. unfold again.
    destruct (Js.truthy parkId); [now apply selector_tagged | exact Hlocation]. }
  assert (Hguide' : generateParkGuide svc again = Js.Normal text).
  { unfold again. destruct (Js.truthy parkId); [rewrite guide_tagged|]; exact Hguide. }
  destruct (MapV2_run_stores svc s' _ _ _ Hparcel' Hlocation' Hguide')
    as (s'' & Hrun' & Hstored').
  pose proof Hstored'
    as (Hplan2 & Hroute2 & Hsel2 & Hparks2 & Hfly2 & Henv2 & Hbikes2 & Hloc2 & Hcontent2
        & Hmap2).
  assert (Hname : common_name (properties again) = parkId).
  { now destruct Hagain as (_ & _ & _ & -> & _). }
  assert (Hgeom : geometry again = geometry bestLocation) by apply Hagain.
  assert (Eparks2 : MapV2.parks s'' = MapV2.parks s').
  { rewrite Hparks2, Hparks, Hname.
    destruct (Js.truthy parkId) eqn:Et; rewrite ?Et; [|reflexivity].
    simpl. now rewrite tagged_twice. }
  exists s''. split; [exact Hrun'|]. split; [|split; [exact Eparks2|split; [|split]]].
  - assert (Hparcel2 : MapV2.findBestEnvironmentalParcel
              (MapV2.userLocation s'') (MapV2.environmentalData s'') (MapV2.parks s'')
              = Some bestParcel) by (rewrite Hloc2, Henv2, Eparks2; exact Hparcel').
    assert (Hlocation2 : findBiggestParkOrTrail (MapV2.parks s'') (MapV2.bikePaths s'')
              bestParcel = Js.Normal (Some again))
      by (rewrite Hbikes2, Eparks2; exact Hlocation').
    destruct (MapV2_run_stores svc s'' _ _ _ Hparcel2 Hlocation2 Hguide')
      as (s3 & Hrun3 & Hstored3).
    rewrite Hrun3. f_equal. exact (planStored_again svc s' s'' s3 _ _ _ Hstored' Hstored3).
  - rewrite Hsel2, Hparks, Hname, Hsel.
    now destruct (Js.truthy parkId) eqn:Et; rewrite ?Et.
  - rewrite Hroute2, Hloc, Hcontent, Hgeom, Hroute.
    now destruct (MapV2.userLocation s), (MapV2.bikePathsContent s).
  - rewrite Hfly2, Hmap, Hgeom, Hfly. now destruct (MapV2.map s).
Qed.

End SecondRun.

(** * The plan panel and the stored plan *)

Section PlanPanelFacts.
Context `{Turf}.

Lemma guide_needs_acres (svc : Services) (park : Feature) (text : string) :
  generateParkGuide svc park = Js.Normal text -> surveyed park.
Proof.
  intros Hguide Hnone.
  destruct (proj2 (generateParkGuide_raises_iff svc park) Hnone) as [e He]. congruence.
Qed.

Lemma panel_of_surveyed (kind : PlanType) (park : Feature) (rating : Js.Number)
    (text : string) :
  surveyed park -> panelRenders (Some (mkHealthyPlan kind park rating text)).
Proof.
  intros Hsurveyed. unfold panelRenders, planPanel, parkDetails. simpl.
  destruct kind; [|eexists; reflexivity].
  destruct (acres (properties park)) as [a|] eqn:E; [eexists; reflexivity|].
  now elim Hsurveyed.
Qed.

(** X10. In both files, if the plan panel can be drawn before a run of
    the plan builder, it can be drawn after it: the plan a run stores has a
    destination with an [acres] number, so the panel's
    [acres.toFixed(2)] does not raise.  The panel of the initial state,
    which has no plan, is empty. *)
Theorem stored_plan_renders :
  planPanel None = Js.Normal None /\
  (forall svc s s',
      panelRenders (MapV2.healthyPlan s) ->
      MapV2.buildHealthyPlan svc s = Js.Normal s' ->
      panelRenders (MapV2.healthyPlan s')) /\
  (forall svc s s',
      panelRenders (MapJs.healthyPlan s) ->
      MapJs.buildHealthyPlan svc s = Js.Normal s' ->
      panelRenders (MapJs.healthyPlan s')).
Proof.
  split; [reflexivity|]. split.
  - intros svc s s' Hbefore Hrun.
    destruct (MapV2_run_inv svc s s' Hrun)
      as [->|(bestParcel & bestLocation & text & _ & _ & Hguide & Hplan & _)];
      [exact Hbefore|].
    rewrite Hplan. apply panel_of_surveyed. exact (guide_needs_acres _ _ _ Hguide).
  - intros svc s s' Hbefore Hrun. pose proof (MapJs_run_cases svc s) as Hcases.
    destruct (MapJs.findBestEnvironmentalParcel _ _) as [[bestParcel|]|e];
      [|congruence|congruence].
    destruct (findBiggestParkOrTrail _ _ _) as [[bestLocation|]|e];
      [|congruence|congruence].
    destruct (generateParkGuide svc bestLocation) as [text|e] eqn:Hguide; [|congruence].
    destruct Hcases as (s'' & Hrun' & Hplan & _).
    assert (s'' = s') by congruence. subst s''.
    rewrite Hplan. apply panel_of_surveyed. exact (guide_needs_acres _ _ _ Hguide).
Qed.

(** X11. In [src/src/Map.js] a run stores a plan of type Trail only when
    no park has its centre inside the best parcel; the destination is then
    the first trail inside the parcel, and that trail carries an [acres]
    number, without which the run raises instead.  (The parks are
    polygons, as [fetchParks] builds them.) *)
Theorem MapJs_trail_plan (svc : Services) (s s' : MapJs.State) (plan : HealthyPlan)
    (parks bikePaths : FeatureCollection) :
  MapJs.parks s = Some parks -> MapJs.bikePaths s = Some bikePaths ->
  allPolygons (MapJs.parks s) ->
  MapJs.buildHealthyPlan svc s = Js.Normal s' ->
  MapJs.healthyPlan s' = Some plan ->
  MapJs.healthyPlan s' <> MapJs.healthyPlan s ->
  type plan = Trail ->
  exists bestParcel,
    MapJs.findBestEnvironmentalParcel (MapJs.userLocation s) (MapJs.environmentalData s)
      = Js.Normal (Some bestParcel) /\
    inParcel bestParcel (features parks) = [] /\
    find (inside bestParcel) (features bikePaths) = Some (location plan) /\
    surveyed (location plan).
Proof.
  intros Eparks Ebikes Hpoly Hrun Hplan Hnew Htrail.
  pose proof (MapJs_run_cases svc s) as Hcases.
  destruct (MapJs.findBestEnvironmentalParcel _ _) as [[bestParcel|]|e];
    [|congruence|congruence].
  rewrite Eparks, Ebikes, findBiggestParkOrTrail_cases in Hcases.
  exists bestParcel. split; [reflexivity|].
  destruct (inParcel bestParcel (features parks)) as [|first rest] eqn:Ein.
  - destruct (find (inside bestParcel) (features bikePaths)) as [trail|]; [|congruence].
    destruct (generateParkGuide svc trail) as [text|e] eqn:Hguide; [|congruence].
    destruct Hcases as (s'' & Hrun' & Hplan' & _).
    assert (s'' = s') by congruence. subst s''.
    rewrite Hplan' in Hplan. injection Hplan as <-. simpl.
    repeat split. exact (guide_needs_acres _ _ _ Hguide).
  - exfalso.
    destruct (generateParkGuide svc (fold_left bigger rest first)) as [text|e];
      [|congruence].
    destruct Hcases as (s'' & Hrun' & Hplan' & _).
    assert (s'' = s') by congruence. subst s''.
    rewrite Hplan' in Hplan. injection Hplan as <-. simpl in Htrail.
    assert (Hin : In (fold_left bigger rest first) (features parks)).
    { pose proof (fold_bigger_In first rest) as Hin. rewrite <- Ein in Hin.
      now apply filter_In in Hin. }
    specialize (Hpoly parks Eparks). rewrite Forall_forall in Hpoly.
    rewrite (Hpoly _ Hin) in Htrail. discriminate.
Qed.

End PlanPanelFacts.

(** * The healthcare layer and the layer switches *)

Section HealthcareFacts.

(** The box is closed: a point on its border is inside. *)
Lemma isWithinSanDiego_iff (lon lat : Q) :
  isWithinSanDiego (lon, lat) = true <->
  -(1176 # 10) <= lon /\ lon <= -(1161 # 10) /\ 325 # 10 <= lat /\ lat <= 335 # 10.
Proof.
  unfold isWithinSanDiego, SD_BOUNDS.
  rewrite !andb_true_iff, !Qle_bool_iff. tauto.
Qed.

(** X12. The facilities the fetch stores are exactly the facilities of
    the response whose own point lies in the San Diego box, as point
    features with their attributes untouched and in the order of the
    response; a failed request leaves the stored facilities as they were. *)
Theorem fetchHealthcareFacilities_in_box
    (data : list Healthcare.EsriPoint) (previous : option FeatureCollection) :
  (forall e, Healthcare.fetchHealthcareFacilities (Js.Throw e) previous = previous) /\
  exists stored,
    Healthcare.fetchHealthcareFacilities (Js.Normal data) previous
      = Some (mkFeatureCollection stored) /\
    stored =
      List.map (fun raw => mkFeature (Point (Healthcare.x raw, Healthcare.y raw))
                                     (Healthcare.attributes raw))
               (filter (fun raw => isWithinSanDiego (Healthcare.x raw, Healthcare.y raw))
                       data) /\
    Forall (fun f => exists lon lat,
                geometry f = Point (lon, lat) /\
                -(1176 # 10) <= lon /\ lon <= -(1161 # 10) /\
                325 # 10 <= lat /\ lat <= 335 # 10) stored.
Proof.
  split; [reflexivity|]. eexists. split; [reflexivity|].
  assert (Hswap : forall l,
    filter Healthcare.coordinatesWithinSanDiego
      (List.map (fun raw => mkFeature (Point (Healthcare.x raw, Healthcare.y raw))
                                      (Healthcare.attributes raw)) l)
    = List.map (fun raw => mkFeature (Point (Healthcare.x raw, Healthcare.y raw))
                                     (Healthcare.attributes raw))
               (filter (fun raw => isWithinSanDiego (Healthcare.x raw, Healthcare.y raw)) l)).
  { induction l as [|raw l IH]; simpl; [reflexivity|].
    unfold Healthcare.coordinatesWithinSanDiego at 1. simpl.
    destruct (isWithinSanDiego _); simpl; now rewrite IH. }
  split; [apply Hswap|].
  apply Forall_forall. intros f Hf. apply filter_In in Hf as [_ Hf].
  unfold Healthcare.coordinatesWithinSanDiego in Hf.
  destruct (geometry f) as [[lon lat]| |]; try discriminate.
  exists lon, lat. split; [reflexivity|]. now apply isWithinSanDiego_iff.
Qed.

(** X13. Pressing a layer switch twice restores the visibility of every
    layer; a press changes the pressed layer only, and presses of
    different switches can be made in either order.  The parks follow the
    bike paths switch: with everything loaded, the parks are drawn exactly
    when the bike paths are. *)
Theorem toggleLayer_switches (layerName other : Layers.LayerName)
    (prev : Layers.LayerVisibility) :
  Layers.toggleLayer layerName (Layers.toggleLayer layerName prev) = prev /\
  Layers.get (Layers.toggleLayer layerName prev) layerName
    = negb (Layers.get prev layerName) /\
  (other <> layerName ->
   Layers.get (Layers.toggleLayer layerName prev) other = Layers.get prev other) /\
  Layers.toggleLayer layerName (Layers.toggleLayer other prev)
    = Layers.toggleLayer other (Layers.toggleLayer layerName prev) /\
  (forall s facilities access,
     MapJs.parks s <> None -> MapJs.bikePaths s <> None ->
     Layers.parksSource (Layers.rendered s facilities access prev)
     = Layers.bikePathsSource (Layers.rendered s facilities access prev)).
Proof.
  destruct prev as [e h b]. repeat split.
  - destruct layerName; simpl; now rewrite negb_involutive.
  - now destruct layerName.
  - destruct layerName, other; simpl; congruence.
  - destruct layerName, other; reflexivity.
  - intros s facilities access Hparks Hbikes. simpl.
    destruct (MapJs.parks s), (MapJs.bikePaths s); try reflexivity; congruence.
Qed.

End HealthcareFacts.

Section AccessPolygonFacts.
Context `{Turf} `{Healthcare.TurfGrid}.

Lemma classify_fold (facilities : FeatureCollection) (grid red yellow : list Feature) :
  fold_left (Healthcare.classify facilities) grid (red, yellow)
  = (red ++ filter (fun cell => Js.gt (Healthcare.distanceToNearest facilities cell) (Some 5))
                   grid,
     yellow ++ filter (fun cell =>
                         negb (Js.gt (Healthcare.distanceToNearest facilities cell) (Some 5))
                         && Js.gt (Healthcare.distanceToNearest facilities cell) (Some 3))
                      grid).
Proof.
  revert red yellow. induction grid as [|cell grid IH]; intros red yellow; simpl.
  - now rewrite !app_nil_r.
  - destruct (Js.gt (Healthcare.distanceToNearest facilities cell) (Some 5)) eqn:E5;
      simpl; [|destruct (Js.gt (Healthcare.distanceToNearest facilities cell) (Some 3))];
      rewrite IH, <- ?app_assoc; reflexivity.
Qed.

(** X14. The loop over the grid puts a cell among the red polygons
    exactly when its nearest facility is more than 5 km away, and among
    the yellow ones exactly when it is more than 3 and at most 5 km away,
    both in grid order; no cell is in both, and a cell within 3 km is in
    neither.  Every access polygon stored, when the merge returns, is
    coloured red or yellow. *)
Theorem classifyCells_by_distance (facilities : FeatureCollection) (grid : list Feature) :
  (forall cell,
      In cell (fst (Healthcare.classifyCells facilities grid)) <->
      In cell grid /\
      Js.gt (Healthcare.distanceToNearest facilities cell) (Some 5) = true) /\
  (forall cell,
      In cell (snd (Healthcare.classifyCells facilities grid)) <->
      In cell grid /\
      Js.gt (Healthcare.distanceToNearest facilities cell) (Some 5) = false /\
      Js.gt (Healthcare.distanceToNearest facilities cell) (Some 3) = true) /\
  Subsequence (fst (Healthcare.classifyCells facilities grid)) grid /\
  Subsequence (snd (Healthcare.classifyCells facilities grid)) grid /\
  (forall cell,
      ~ (In cell (fst (Healthcare.classifyCells facilities grid)) /\
         In cell (snd (Healthcare.classifyCells facilities grid)))) /\
  (forall cell,
      Js.gt (Healthcare.distanceToNearest facilities cell) (Some 3) = false ->
      ~ In cell (fst (Healthcare.classifyCells facilities grid)) /\
      ~ In cell (snd (Healthcare.classifyCells facilities grid))) /\
  (forall previous stored,
      Healthcare.generateAccessPolygons (Some facilities) previous
        = Js.Normal (Some stored) ->
      Forall (fun polygon => Healthcare.color polygon = "red"%string \/
                             Healthcare.color polygon = "yellow"%string) stored).
Proof.
  unfold Healthcare.classifyCells. rewrite classify_fold. simpl.
  split; [|split; [|split; [|split; [|split; [|split]]]]].
  - intros cell. apply filter_In.
  - intros cell. rewrite filter_In, andb_true_iff, negb_true_iff. tauto.
  - apply filter_Subsequence.
  - apply filter_Subsequence.
  - intros cell [Hred Hyellow].
    apply filter_In in Hred as [_ Hred]. apply filter_In in Hyellow as [_ Hyellow].
    rewrite Hred in Hyellow. discriminate.
  - intros cell Hnear. split; intros Hin; apply filter_In in Hin as [_ Hin].
    + destruct (Healthcare.distanceToNearest facilities cell) as [d|]; [|discriminate].
      simpl in Hin, Hnear.
      destruct (d ?= 5) eqn:E5; try discriminate.
      destruct (d ?= 3) eqn:E3; try discriminate.
      * apply Qeq_alt in E3. apply Qgt_alt in E5. rewrite E3 in E5.
        now apply (Qlt_irrefl 3), (Qlt_trans 3 5 3).
      * apply Qlt_alt in E3. apply Qgt_alt in E5.
        apply (Qlt_irrefl 3), (Qlt_trans 3 5 3); [reflexivity|].
        now apply (Qlt_trans 5 d 3).
    + rewrite Hnear, andb_false_r in Hin. discriminate.
  - intros previous stored. unfold Healthcare.generateAccessPolygons.
    destruct (Healthcare.classifyCells facilities _) as [red yellow].
    destruct (Healthcare.dissolve red) as [mergedRed|e]; simpl; [|discriminate].
    destruct (Healthcare.dissolve yellow) as [mergedYellow|e]; simpl; [|discriminate].
    intros [= <-]. apply Forall_app. split; apply Forall_forall; intros polygon Hin;
      apply in_map_iff in Hin as (f & <- & _); simpl; auto.
Qed.

End AccessPolygonFacts.

(** * The two plan builders on the same data *)

Section Versions.
Context `{Turf}.

(** X3. On the same data, when the parcel that [src/src/Map.js] ranks
    first has a park in it, the later revision ranks the same parcel first
    and the two plan builders end alike, whatever the narrative service
    answers to each: both raise the same error, or both return, with plans
    of the same type, destination and rating.  The park test of the later
    revision only matters when the best-scored parcel in range holds no
    park. *)
Theorem versions_agree_on_parcel_with_park
    (svcJ svcV : Services) (sJ : MapJs.State) (sV : MapV2.State)
    (loc : Position) (env parks : FeatureCollection) (best : Feature) :
  MapJs.userLocation sJ = Some loc -> MapV2.userLocation sV = Some loc ->
  MapJs.environmentalData sJ = Some env -> MapV2.environmentalData sV = Some env ->
  MapJs.parks sJ = Some parks -> MapV2.parks sV = Some parks ->
  MapJs.bikePaths sJ = MapV2.bikePaths sV ->
  samePlanButGuide (MapJs.healthyPlan sJ) (MapV2.healthyPlan sV) ->
  Forall scored (withinRadius loc 2 (features env)) ->
  MapJs.findBestEnvironmentalParcel (Some loc) (Some env) = Js.Normal (Some best) ->
  hasPark parks best = true ->
  MapV2.findBestEnvironmentalParcel (Some loc) (Some env) (Some parks) = Some best /\
  match MapJs.buildHealthyPlan svcJ sJ, MapV2.buildHealthyPlan svcV sV with
  | Js.Normal sJ', Js.Normal sV' =>
      samePlanButGuide (MapJs.healthyPlan sJ') (MapV2.healthyPlan sV')
  | Js.Throw eJ, Js.Throw eV => eJ = eV
  | _, _ => False
  end.
Proof.
  intros HlocJ HlocV HenvJ HenvV HparksJ HparksV Hbikes Hplan Hscored HJs Hpark.
  pose proof (rankers_agree_on_parcel_with_park loc env parks best Hscored HJs Hpark)
    as HV2.
  split; [exact HV2|].
  pose proof (MapJs_run_cases svcJ sJ) as HrunJ.
  pose proof (MapV2_run_cases svcV sV) as HrunV.
  rewrite HlocJ, HenvJ, HJs, HparksJ, Hbikes in HrunJ.
  rewrite HlocV, HenvV, HparksV, HV2 in HrunV.
  destruct (findBiggestParkOrTrail (Some parks) (MapV2.bikePaths sV) best)
    as [[bestLocation|]|e]; [|now rewrite HrunJ, HrunV|now rewrite HrunJ, HrunV].
  unfold generateParkGuide in HrunJ, HrunV.
  destruct (parkPrompt bestLocation) as [prompt|e]; simpl in HrunJ, HrunV;
    [|now rewrite HrunJ, HrunV].
  destruct (chatCompletions svcJ prompt), (chatCompletions svcV prompt);
    destruct HrunJ as (sJ' & -> & -> & _); destruct HrunV as (sV' & -> & -> & _);
    repeat split.
Qed.

End Versions.

(** * The stored plan, end to end *)

Section BestPlan.
Context `{Turf}.

(** X15. With every in-range parcel scored and every park carrying an
    area, a run of the later revision that changes the state has stored a
    plan whose rating is the greatest score among the in-range parcels
    with a park inside, and whose destination is a park inside that
    parcel with the greatest area among the parks inside it. *)
Theorem MapV2_plan_is_best (svc : Services) (s s' : MapV2.State)
    (loc : Position) (env parks : FeatureCollection) :
  MapV2.userLocation s = Some loc ->
  MapV2.environmentalData s = Some env ->
  MapV2.parks s = Some parks ->
  Forall scored (withinRadius loc 2 (features env)) ->
  Forall surveyed (features parks) ->
  MapV2.buildHealthyPlan svc s = Js.Normal s' ->
  s' <> s ->
  exists plan bestParcel,
    MapV2.healthyPlan s' = Some plan /\
    In bestParcel (withinRadius loc 2 (features env)) /\
    environmentalRating plan = percentile (properties bestParcel) /\
    (forall parcel, In parcel (withinRadius loc 2 (features env)) ->
       hasPark parks parcel = true ->
       Js.Le (percentile (properties parcel)) (environmentalRating plan)) /\
    In (location plan) (inParcel bestParcel (features parks)) /\
    (forall park, In park (inParcel bestParcel (features parks)) ->
       Js.Le (acres (properties park)) (acres (properties (location plan)))).
Proof.
  intros Eloc Eenv Eparks Hscored Hsurveyed Hrun Hchanged.
  destruct (MapV2_run_inv svc s s' Hrun)
    as [->|(bestParcel & bestLocation & text & Hparcel & Hlocation & _ & Hplan & _)];
    [congruence|].
  rewrite Eloc, Eenv, Eparks in Hparcel. rewrite Eparks in Hlocation.
  destruct (MapV2_ranker_greatest loc env parks bestParcel Hscored Hparcel)
    as (Hin & Hpark & Hmax).
  destruct (MapV2.bikePaths s) as [bikePaths|]; [|discriminate].
  rewrite findBiggestParkOrTrail_cases in Hlocation.
  apply length_pos_cons in Hpark.
  destruct (inParcel bestParcel (features parks)) as [|first rest] eqn:Ein; [congruence|].
  injection Hlocation as <-.
  assert (Hsurveyed' : Forall surveyed (first :: rest)).
  { rewrite <- Ein. apply Forall_forall. intros park Hpark'.
    apply filter_In in Hpark' as [Hpark' _].
    rewrite Forall_forall in Hsurveyed. now apply Hsurveyed. }
  destruct (JsFacts.fold_greatest (fun f => acres (properties f)) bigger bigger_spec
              first rest Hsurveyed') as (Hbig & Hbigmax & _).
  eexists. exists bestParcel. split; [exact Hplan|]. simpl.
  split; [exact Hin|]. split; [reflexivity|]. split; [exact Hmax|].
  rewrite Ein. split; [exact Hbig | exact Hbigmax].
Qed.

End BestPlan.

(** * The further properties on the concrete map *)

Lemma versions_agree_witness :
  Forall scored (withinRadius Fixture.userLocation 2
                   [Fixture.parcelFar; Fixture.parcelB; Fixture.parcelB9]) /\
  MapJs.findBestEnvironmentalParcel (Some Fixture.userLocation)
    (Some (mkFeatureCollection [Fixture.parcelFar; Fixture.parcelB; Fixture.parcelB9]))
    = Js.Normal (Some Fixture.parcelB9) /\
  hasPark (mkFeatureCollection [Fixture.park5; Fixture.park78]) Fixture.parcelB9 = true /\
  MapV2.findBestEnvironmentalParcel (Some Fixture.userLocation)
    (Some (mkFeatureCollection [Fixture.parcelFar; Fixture.parcelB; Fixture.parcelB9]))
    (Some (mkFeatureCollection [Fixture.park5; Fixture.park78]))
    = Some Fixture.parcelB9 /\
  samePlanButGuide
    (MapJs.healthyPlan (Scenario.afterJs Fixture.servicesDown Scenario.sameDataJs))
    (MapV2.healthyPlan (Scenario.afterV2 Fixture.servicesUp Scenario.sameDataV2)).
Proof.
  assert (Hscored : Forall scored (withinRadius Fixture.userLocation 2
                     [Fixture.parcelFar; Fixture.parcelB; Fixture.parcelB9]))
    by (vm_compute; repeat constructor; discriminate).
  assert (HJs : MapJs.findBestEnvironmentalParcel (Some Fixture.userLocation)
            (Some (mkFeatureCollection
                     [Fixture.parcelFar; Fixture.parcelB; Fixture.parcelB9]))
            = Js.Normal (Some Fixture.parcelB9)) by (vm_compute; reflexivity).
  assert (Hpark : hasPark (mkFeatureCollection [Fixture.park5; Fixture.park78])
                    Fixture.parcelB9 = true) by (vm_compute; reflexivity).
  destruct (versions_agree_on_parcel_with_park Fixture.servicesDown Fixture.servicesUp
              Scenario.sameDataJs Scenario.sameDataV2 Fixture.userLocation
              (mkFeatureCollection [Fixture.parcelFar; Fixture.parcelB; Fixture.parcelB9])
              (mkFeatureCollection [Fixture.park5; Fixture.park78]) Fixture.parcelB9
              eq_refl eq_refl eq_refl eq_refl eq_refl eq_refl eq_refl I
              Hscored HJs Hpark) as [HV2 Hruns].
  assert (EJ : MapJs.buildHealthyPlan Fixture.servicesDown Scenario.sameDataJs
               = Js.Normal (Scenario.afterJs Fixture.servicesDown Scenario.sameDataJs))
    by (vm_compute; reflexivity).
  assert (EV : MapV2.buildHealthyPlan Fixture.servicesUp Scenario.sameDataV2
               = Js.Normal (Scenario.afterV2 Fixture.servicesUp Scenario.sameDataV2))
    by (vm_compute; reflexivity).
  rewrite EJ, EV in Hruns.
  split; [exact Hscored|]. split; [exact HJs|]. split; [exact Hpark|].
  split; [exact HV2 | exact Hruns].
Defined.

Lemma ranker_independent_of_fetch_order_witness :
  Permutation [Fixture.parcelFar; Fixture.parcelB; Fixture.parcelA]
              [Fixture.parcelA; Fixture.parcelFar; Fixture.parcelB] /\
  Forall scored (withinRadius Fixture.userLocation 2
                   [Fixture.parcelFar; Fixture.parcelB; Fixture.parcelA]) /\
  distinctScores (withinRadius Fixture.userLocation 2
                    [Fixture.parcelFar; Fixture.parcelB; Fixture.parcelA]) /\
  MapV2.findBestEnvironmentalParcel (Some Fixture.userLocation)
    (Some (mkFeatureCollection [Fixture.parcelFar; Fixture.parcelB; Fixture.parcelA]))
    (Some (mkFeatureCollection [Fixture.park5]))
  = MapV2.findBestEnvironmentalParcel (Some Fixture.userLocation)
    (Some (mkFeatureCollection [Fixture.parcelA; Fixture.parcelFar; Fixture.parcelB]))
    (Some (mkFeatureCollection [Fixture.park5])).
Proof.
  assert (Hperm : Permutation [Fixture.parcelFar; Fixture.parcelB; Fixture.parcelA]
                              [Fixture.parcelA; Fixture.parcelFar; Fixture.parcelB])
    by exact (Permutation_sym
                (Permutation_cons_append [Fixture.parcelFar; Fixture.parcelB]
                                         Fixture.parcelA)).
  assert (Hrange : withinRadius Fixture.userLocation 2
                     [Fixture.parcelFar; Fixture.parcelB; Fixture.parcelA]
                   = [Fixture.parcelB; Fixture.parcelA]) by (vm_compute; reflexivity).
  assert (Hscored : Forall scored (withinRadius Fixture.userLocation 2
                     [Fixture.parcelFar; Fixture.parcelB; Fixture.parcelA]))
    by (rewrite Hrange; repeat constructor; discriminate).
  assert (Hdistinct : distinctScores (withinRadius Fixture.userLocation 2
                        [Fixture.parcelFar; Fixture.parcelB; Fixture.parcelA])).
  { rewrite Hrange. intros a b [<-|[<-|[]]] [<-|[<-|[]]] Htied;
      try reflexivity; vm_compute in Htied; discriminate. }
  repeat (split; [assumption|]).
  exact (ranker_independent_of_fetch_order Fixture.userLocation
           (mkFeatureCollection [Fixture.parcelFar; Fixture.parcelB; Fixture.parcelA])
           (mkFeatureCollection [Fixture.parcelA; Fixture.parcelFar; Fixture.parcelB])
           (mkFeatureCollection [Fixture.park5]) Hperm Hscored Hdistinct).
Defined.

Lemma loaded_run :
  MapV2.buildHealthyPlan Fixture.servicesUp Scenario.loadedV2
  = Js.Normal (Scenario.afterV2 Fixture.servicesUp Scenario.loadedV2).
Proof. vm_compute. reflexivity. Qed.

Example loaded_run_stores :
  MapV2.healthyPlan (Scenario.afterV2 Fixture.servicesUp Scenario.loadedV2)
    = Some (mkHealthyPlan Park Fixture.park78 (Some (7 # 10)) "### A park")
  /\ MapV2.selectedParkId (Scenario.afterV2 Fixture.servicesUp Scenario.loadedV2)
    = Some "Large Park"%string
  /\ MapV2.route (Scenario.afterV2 Fixture.servicesUp Scenario.loadedV2)
    = Some (LineString [Fixture.userLocation; center (geometry Fixture.park78)])
  /\ option_map (fun fc => List.map (fun f => selected (properties f)) (features fc))
       (MapV2.parks (Scenario.afterV2 Fixture.servicesUp Scenario.loadedV2))
    = Some [Some false; Some true; Some false].
Proof. vm_compute. repeat split; reflexivity. Qed.

Lemma MapV2_buildHealthyPlan_frame_witness :
  MapV2.buildHealthyPlan Fixture.servicesUp Scenario.loadedV2
    = Js.Normal (Scenario.afterV2 Fixture.servicesUp Scenario.loadedV2) /\
  MapV2.userLocation (Scenario.afterV2 Fixture.servicesUp Scenario.loadedV2)
    = MapV2.userLocation Scenario.loadedV2 /\
  MapV2.environmentalData (Scenario.afterV2 Fixture.servicesUp Scenario.loadedV2)
    = MapV2.environmentalData Scenario.loadedV2 /\
  MapV2.bikePaths (Scenario.afterV2 Fixture.servicesUp Scenario.loadedV2)
    = MapV2.bikePaths Scenario.loadedV2 /\
  MapV2.bikePathsContent (Scenario.afterV2 Fixture.servicesUp Scenario.loadedV2)
    = MapV2.bikePathsContent Scenario.loadedV2 /\
  match MapV2.parks (Scenario.afterV2 Fixture.servicesUp Scenario.loadedV2),
        MapV2.parks Scenario.loadedV2 with
  | Some parks', Some parks => Forall2 sameButTag (features parks') (features parks)
  | None, None => True
  | _, _ => False
  end.
Proof.
  split; [exact loaded_run|].
  exact (MapV2_buildHealthyPlan_frame Fixture.servicesUp Scenario.loadedV2 _ loaded_run).
Defined.

Lemma MapV2_selected_park_tagged_witness :
  MapV2.findBestEnvironmentalParcel
    (MapV2.userLocation Scenario.loadedV2) (MapV2.environmentalData Scenario.loadedV2)
    (MapV2.parks Scenario.loadedV2) = Some Fixture.parcelB /\
  findBiggestParkOrTrail (MapV2.parks Scenario.loadedV2) (MapV2.bikePaths Scenario.loadedV2)
    Fixture.parcelB = Js.Normal (Some Fixture.park78) /\
  generateParkGuide Fixture.servicesUp Fixture.park78 = Js.Normal "### A park"%string /\
  Js.truthy (common_name (properties Fixture.park78)) = true /\
  exists s' parks',
    MapV2.buildHealthyPlan Fixture.servicesUp Scenario.loadedV2 = Js.Normal s' /\
    MapV2.selectedParkId s' = common_name (properties Fixture.park78) /\
    MapV2.parks s' = Some parks' /\
    (forall park, In park (features parks') ->
       (selected (properties park) = Some true <->
        common_name (properties park) = common_name (properties Fixture.park78))) /\
    exists tagged, In tagged (features parks') /\
                   sameButTag tagged Fixture.park78 /\
                   selected (properties tagged) = Some true.
Proof.
  assert (Hparcel : MapV2.findBestEnvironmentalParcel
            (MapV2.userLocation Scenario.loadedV2)
            (MapV2.environmentalData Scenario.loadedV2)
            (MapV2.parks Scenario.loadedV2) = Some Fixture.parcelB)
    by (vm_compute; reflexivity).
  assert (Hlocation : findBiggestParkOrTrail (MapV2.parks Scenario.loadedV2)
            (MapV2.bikePaths Scenario.loadedV2) Fixture.parcelB
            = Js.Normal (Some Fixture.park78)) by (vm_compute; reflexivity).
  assert (Hguide : generateParkGuide Fixture.servicesUp Fixture.park78
                   = Js.Normal "### A park"%string) by reflexivity.
  assert (Hname : Js.truthy (common_name (properties Fixture.park78)) = true)
    by reflexivity.
  repeat (split; [assumption|]).
  exact (MapV2_selected_park_tagged Fixture.servicesUp Scenario.loadedV2
           Fixture.parcelB Fixture.park78 _ Hparcel Hlocation Hguide Hname).
Defined.

Lemma MapV2_unnamed_destination_witness :
  MapV2.findBestEnvironmentalParcel
    (MapV2.userLocation Scenario.unnamedV2) (MapV2.environmentalData Scenario.unnamedV2)
    (MapV2.parks Scenario.unnamedV2) = Some Fixture.parcelB /\
  findBiggestParkOrTrail (MapV2.parks Scenario.unnamedV2)
    (MapV2.bikePaths Scenario.unnamedV2) Fixture.parcelB
    = Js.Normal (Some Scenario.parkUnnamed) /\
  generateParkGuide Fixture.servicesUp Scenario.parkUnnamed
    = Js.Normal "### A park"%string /\
  Js.truthy (common_name (properties Scenario.parkUnnamed)) = false /\
  exists s' plan,
    MapV2.buildHealthyPlan Fixture.servicesUp Scenario.unnamedV2 = Js.Normal s' /\
    MapV2.healthyPlan s' = Some plan /\ location plan = Scenario.parkUnnamed /\
    MapV2.selectedParkId s' = MapV2.selectedParkId Scenario.unnamedV2 /\
    MapV2.parks s' = MapV2.parks Scenario.unnamedV2.
Proof.
  assert (Hparcel : MapV2.findBestEnvironmentalParcel
            (MapV2.userLocation Scenario.unnamedV2)
            (MapV2.environmentalData Scenario.unnamedV2)
            (MapV2.parks Scenario.unnamedV2) = Some Fixture.parcelB)
    by (vm_compute; reflexivity).
  assert (Hlocation : findBiggestParkOrTrail (MapV2.parks Scenario.unnamedV2)
            (MapV2.bikePaths Scenario.unnamedV2) Fixture.parcelB
            = Js.Normal (Some Scenario.parkUnnamed)) by (vm_compute; reflexivity).
  assert (Hguide : generateParkGuide Fixture.servicesUp Scenario.parkUnnamed
                   = Js.Normal "### A park"%string) by reflexivity.
  assert (Hname : Js.truthy (common_name (properties Scenario.parkUnnamed)) = false)
    by reflexivity.
  repeat (split; [assumption|]).
  exact (MapV2_unnamed_destination_keeps_selection Fixture.servicesUp Scenario.unnamedV2
           Fixture.parcelB Scenario.parkUnnamed _ Hparcel Hlocation Hguide Hname).
Defined.

Lemma MapV2_route_and_camera_witness :
  MapV2.findBestEnvironmentalParcel
    (MapV2.userLocation Scenario.loadedV2) (MapV2.environmentalData Scenario.loadedV2)
    (MapV2.parks Scenario.loadedV2) = Some Fixture.parcelB /\
  findBiggestParkOrTrail (MapV2.parks Scenario.loadedV2) (MapV2.bikePaths Scenario.loadedV2)
    Fixture.parcelB = Js.Normal (Some Fixture.park78) /\
  generateParkGuide Fixture.servicesDown Fixture.park78 = Js.Normal guideUnavailable /\
  exists s' loc,
    MapV2.buildHealthyPlan Fixture.servicesDown Scenario.loadedV2 = Js.Normal s' /\
    MapV2.userLocation Scenario.loadedV2 = Some loc /\
    MapV2.route s' =
      (if Layers.loaded (MapV2.bikePathsContent Scenario.loadedV2)
       then directions Fixture.servicesDown loc (center (geometry Fixture.park78))
       else MapV2.route Scenario.loadedV2) /\
    MapV2.flownTo s' =
      (if MapV2.map Scenario.loadedV2
       then Some (mkFlyTo (center (geometry Fixture.park78)) 13 2000)
       else MapV2.flownTo Scenario.loadedV2).
Proof.
  assert (Hparcel : MapV2.findBestEnvironmentalParcel
            (MapV2.userLocation Scenario.loadedV2)
            (MapV2.environmentalData Scenario.loadedV2)
            (MapV2.parks Scenario.loadedV2) = Some Fixture.parcelB)
    by (vm_compute; reflexivity).
  assert (Hlocation : findBiggestParkOrTrail (MapV2.parks Scenario.loadedV2)
            (MapV2.bikePaths Scenario.loadedV2) Fixture.parcelB
            = Js.Normal (Some Fixture.park78)) by (vm_compute; reflexivity).
  assert (Hguide : generateParkGuide Fixture.servicesDown Fixture.park78
                   = Js.Normal guideUnavailable) by reflexivity.
  repeat (split; [assumption|]).
  exact (MapV2_route_and_camera Fixture.servicesDown Scenario.loadedV2
           Fixture.parcelB Fixture.park78 _ Hparcel Hlocation Hguide).
Defined.

Lemma MapV2_second_run_witness :
  MapV2.buildHealthyPlan Fixture.servicesUp Scenario.loadedV2
    = Js.Normal (Scenario.afterV2 Fixture.servicesUp Scenario.loadedV2) /\
  exists s'',
    MapV2.buildHealthyPlan Fixture.servicesUp
      (Scenario.afterV2 Fixture.servicesUp Scenario.loadedV2) = Js.Normal s'' /\
    MapV2.buildHealthyPlan Fixture.servicesUp s'' = Js.Normal s'' /\
    MapV2.parks s'' = MapV2.parks (Scenario.afterV2 Fixture.servicesUp Scenario.loadedV2) /\
    MapV2.selectedParkId s''
      = MapV2.selectedParkId (Scenario.afterV2 Fixture.servicesUp Scenario.loadedV2) /\
    MapV2.route s'' = MapV2.route (Scenario.afterV2 Fixture.servicesUp Scenario.loadedV2) /\
    MapV2.flownTo s''
      = MapV2.flownTo (Scenario.afterV2 Fixture.servicesUp Scenario.loadedV2).
Proof.
  split; [exact loaded_run|].
  exact (MapV2_second_run_is_stable Fixture.servicesUp Scenario.loadedV2 _ loaded_run).
Defined.

Lemma trail_run :
  MapJs.buildHealthyPlan Fixture.servicesUp Scenario.trailJs
  = Js.Normal (Scenario.afterJs Fixture.servicesUp Scenario.trailJs).
Proof. vm_compute. reflexivity. Qed.

Lemma MapJs_trail_plan_witness :
  MapJs.parks Scenario.trailJs = Some (mkFeatureCollection [Fixture.park5]) /\
  MapJs.bikePaths Scenario.trailJs = Some (mkFeatureCollection [Scenario.trailWithAcres]) /\
  allPolygons (MapJs.parks Scenario.trailJs) /\
  MapJs.buildHealthyPlan Fixture.servicesUp Scenario.trailJs
    = Js.Normal (Scenario.afterJs Fixture.servicesUp Scenario.trailJs) /\
  MapJs.healthyPlan (Scenario.afterJs Fixture.servicesUp Scenario.trailJs)
    = Some (mkHealthyPlan Trail Scenario.trailWithAcres (Some (9 # 10)) "### A park") /\
  MapJs.healthyPlan (Scenario.afterJs Fixture.servicesUp Scenario.trailJs)
    <> MapJs.healthyPlan Scenario.trailJs /\
  exists bestParcel,
    MapJs.findBestEnvironmentalParcel (MapJs.userLocation Scenario.trailJs)
      (MapJs.environmentalData Scenario.trailJs) = Js.Normal (Some bestParcel) /\
    inParcel bestParcel [Fixture.park5] = [] /\
    find (inside bestParcel) [Scenario.trailWithAcres] = Some Scenario.trailWithAcres /\
    surveyed Scenario.trailWithAcres.
Proof.
  assert (Hpoly : allPolygons (MapJs.parks Scenario.trailJs))
    by (intros fc [= <-]; repeat constructor).
  assert (Hplan : MapJs.healthyPlan (Scenario.afterJs Fixture.servicesUp Scenario.trailJs)
            = Some (mkHealthyPlan Trail Scenario.trailWithAcres (Some (9 # 10))
                                  "### A park")) by (vm_compute; reflexivity).
  assert (Hnew : MapJs.healthyPlan (Scenario.afterJs Fixture.servicesUp Scenario.trailJs)
                 <> MapJs.healthyPlan Scenario.trailJs)
    by (rewrite Hplan; discriminate).
  split; [reflexivity|]. split; [reflexivity|]. split; [exact Hpoly|].
  split; [exact trail_run|]. split; [exact Hplan|]. split; [exact Hnew|].
  exact (MapJs_trail_plan Fixture.servicesUp Scenario.trailJs _ _
           (mkFeatureCollection [Fixture.park5])
           (mkFeatureCollection [Scenario.trailWithAcres])
           eq_refl eq_refl Hpoly trail_run Hplan Hnew eq_refl).
Defined.

Lemma MapV2_raises_witness :
  Forall scored (withinRadius Fixture.userLocation 2 [Fixture.parcelA; Fixture.parcelB]) /\
  MapV2.findBestEnvironmentalParcel (Some Fixture.userLocation)
    (Some (mkFeatureCollection [Fixture.parcelA; Fixture.parcelB]))
    (Some (mkFeatureCollection [Fixture.parkNoAcres; Fixture.park5]))
    = Some Fixture.parcelB /\
  inParcel Fixture.parcelB [Fixture.parkNoAcres; Fixture.park5]
    = [Fixture.parkNoAcres; Fixture.park5] /\
  acres (properties Fixture.parkNoAcres) = None /\
  exists e,
    MapV2.buildHealthyPlan Fixture.servicesUp
      (Fixture.stateV2 [Fixture.parcelA; Fixture.parcelB]
                       [Fixture.parkNoAcres; Fixture.park5] [Fixture.trailA1])
    = Js.Throw e.
Proof.
  assert (Hscored : Forall scored (withinRadius Fixture.userLocation 2
                      [Fixture.parcelA; Fixture.parcelB]))
    by (vm_compute; repeat constructor; discriminate).
  assert (Hparcel : MapV2.findBestEnvironmentalParcel (Some Fixture.userLocation)
            (Some (mkFeatureCollection [Fixture.parcelA; Fixture.parcelB]))
            (Some (mkFeatureCollection [Fixture.parkNoAcres; Fixture.park5]))
            = Some Fixture.parcelB) by (vm_compute; reflexivity).
  assert (Ein : inParcel Fixture.parcelB [Fixture.parkNoAcres; Fixture.park5]
                = [Fixture.parkNoAcres; Fixture.park5]) by (vm_compute; reflexivity).
  split; [exact Hscored|]. split; [exact Hparcel|]. split; [exact Ein|].
  split; [reflexivity|].
  exact (MapV2_missing_acres_raises Fixture.servicesUp
           (Fixture.stateV2 [Fixture.parcelA; Fixture.parcelB]
                            [Fixture.parkNoAcres; Fixture.park5] [Fixture.trailA1])
           Fixture.userLocation
           (mkFeatureCollection [Fixture.parcelA; Fixture.parcelB])
           (mkFeatureCollection [Fixture.parkNoAcres; Fixture.park5])
           (mkFeatureCollection [Fixture.trailA1])
           Fixture.parcelB Fixture.parkNoAcres [Fixture.park5]
           eq_refl eq_refl eq_refl eq_refl Hscored Hparcel Ein eq_refl).
Defined.

Lemma MapJs_raises_witness :
  withinRadius Fixture.userLocation 2 [Fixture.parcelFar] = [] /\
  (exists e, MapJs.buildHealthyPlan Fixture.servicesUp
     (Fixture.stateJs [Fixture.parcelFar] [Fixture.park5] [Fixture.trailA1]) = Js.Throw e)
  /\ MapJs.findBestEnvironmentalParcel (Some Fixture.userLocation)
       (Fixture.fc [Fixture.parcelA]) = Js.Normal (Some Fixture.parcelA)
  /\ findBiggestParkOrTrail (Fixture.fc [Fixture.park5]) (Fixture.fc [Fixture.trailA1])
       Fixture.parcelA = Js.Normal (Some Fixture.trailA1)
  /\ acres (properties Fixture.trailA1) = None
  /\ (exists e, MapJs.buildHealthyPlan Fixture.servicesUp
     (Fixture.stateJs [Fixture.parcelA] [Fixture.park5] [Fixture.trailA1]) = Js.Throw e).
Proof.
  assert (Hnone : withinRadius Fixture.userLocation 2 [Fixture.parcelFar] = [])
    by (vm_compute; reflexivity).
  assert (Hparcel : MapJs.findBestEnvironmentalParcel (Some Fixture.userLocation)
            (Fixture.fc [Fixture.parcelA]) = Js.Normal (Some Fixture.parcelA))
    by (vm_compute; reflexivity).
  assert (Hlocation : findBiggestParkOrTrail (Fixture.fc [Fixture.park5])
            (Fixture.fc [Fixture.trailA1]) Fixture.parcelA
            = Js.Normal (Some Fixture.trailA1)) by (vm_compute; reflexivity).
  split; [exact Hnone|]. split.
  - exact (proj1 (MapJs_buildHealthyPlan_raises Fixture.servicesUp
                    (Fixture.stateJs [Fixture.parcelFar] [Fixture.park5]
                                     [Fixture.trailA1]))
             Fixture.userLocation (mkFeatureCollection [Fixture.parcelFar])
             eq_refl eq_refl Hnone).
  - split; [exact Hparcel|]. split; [exact Hlocation|]. split; [reflexivity|].
    exact (proj2 (MapJs_buildHealthyPlan_raises Fixture.servicesUp
                    (Fixture.stateJs [Fixture.parcelA] [Fixture.park5]
                                     [Fixture.trailA1]))
             Fixture.parcelA Fixture.trailA1 Hparcel Hlocation eq_refl).
Defined.

Lemma MapV2_plan_is_best_witness :
  MapV2.userLocation Scenario.loadedV2 = Some Fixture.userLocation /\
  Forall scored (withinRadius Fixture.userLocation 2
                   [Fixture.parcelFar; Fixture.parcelA; Fixture.parcelB]) /\
  Forall surveyed [Fixture.park5; Fixture.park78; Fixture.park32] /\
  MapV2.buildHealthyPlan Fixture.servicesUp Scenario.loadedV2
    = Js.Normal (Scenario.afterV2 Fixture.servicesUp Scenario.loadedV2) /\
  Scenario.afterV2 Fixture.servicesUp Scenario.loadedV2 <> Scenario.loadedV2 /\
  exists plan bestParcel,
    MapV2.healthyPlan (Scenario.afterV2 Fixture.servicesUp Scenario.loadedV2)
      = Some plan /\
    In bestParcel (withinRadius Fixture.userLocation 2
                     [Fixture.parcelFar; Fixture.parcelA; Fixture.parcelB]) /\
    environmentalRating plan = percentile (properties bestParcel) /\
    (forall parcel,
       In parcel (withinRadius Fixture.userLocation 2
                    [Fixture.parcelFar; Fixture.parcelA; Fixture.parcelB]) ->
       hasPark (mkFeatureCollection [Fixture.park5; Fixture.park78; Fixture.park32])
               parcel = true ->
       Js.Le (percentile (properties parcel)) (environmentalRating plan)) /\
    In (location plan)
       (inParcel bestParcel [Fixture.park5; Fixture.park78; Fixture.park32]) /\
    (forall park,
       In park (inParcel bestParcel [Fixture.park5; Fixture.park78; Fixture.park32]) ->
       Js.Le (acres (properties park)) (acres (properties (location plan)))).
Proof.
  assert (Hscored : Forall scored (withinRadius Fixture.userLocation 2
                     [Fixture.parcelFar; Fixture.parcelA; Fixture.parcelB]))
    by (vm_compute; repeat constructor; discriminate).
  assert (Hsurveyed : Forall surveyed [Fixture.park5; Fixture.park78; Fixture.park32])
    by (repeat constructor; discriminate).
  assert (Hchanged : Scenario.afterV2 Fixture.servicesUp Scenario.loadedV2
                     <> Scenario.loadedV2).
  { intros E. apply (f_equal MapV2.healthyPlan) in E. vm_compute in E. discriminate. }
  split; [reflexivity|]. split; [exact Hscored|]. split; [exact Hsurveyed|].
  split; [exact loaded_run|]. split; [exact Hchanged|].
  exact (MapV2_plan_is_best Fixture.servicesUp Scenario.loadedV2 _ Fixture.userLocation
           (mkFeatureCollection [Fixture.parcelFar; Fixture.parcelA; Fixture.parcelB])
           (mkFeatureCollection [Fixture.park5; Fixture.park78; Fixture.park32])
           eq_refl eq_refl eq_refl Hscored Hsurveyed loaded_run Hchanged).
Defined.
